(** * GlaDOS llama.cpp server supervisor: [glados/llama.py]

    A shallow embedding of [LlamaServerConfig] and [LlamaServer] and the
    properties of the start / readiness-poll / stop life cycle.

    Conventions of the embedding:
    - Python [int] is [Z]; a Python [float] is [pyfloat] (a finite rational
      value, the two infinities, or NaN);
    - the mapping produced by [yaml.safe_load] is a [yaml] tree whose
      dictionaries are [gmap string yaml];
    - a method that can raise returns a [result];
    - calls that leave the program ([requests.get], [time.sleep],
      [subprocess.Popen], [Popen.terminate], [Popen.wait]) are recorded as
      [event]s; what they answer is given by a [world];
    - [loop_body], [while_true], [is_running] and [start] describe the runs
      in which every health request ends in a refusal or a response and
      every call of [time.sleep] and [Popen.wait] returns; the module [Full]
      describes all runs: a health request may also raise an exception that
      the code does not catch or never return, [time.sleep] rejects some
      lengths, and [Popen.wait] may block for ever.  The two agree where the
      first applies ([full_while_true_agrees], [full_start_agrees]);
    - [logging] calls have no influence on control flow and are left out. *)

From Stdlib Require Import ZArith QArith Qround Lia.
From stdpp Require Import gmap strings list.
From Stdlib Require Import Lqa.
From stdpp Require Import pretty.

Local Open Scope Z_scope.

(** ** Python values *)

(** A Python float: finite floats are rationals, plus the special values. *)
Inductive pyfloat : Type :=
  | Finite (q : Q)
  | PInf
  | NInf
  | NaN.

(** [k > f] for an [int] k and a [float] f, as Python evaluates it (the
    comparison is exact; any comparison with NaN is false). *)
Definition int_gt_float (k : Z) (f : pyfloat) : bool :=
  match f with
  | Finite q => negb (Qle_bool (inject_Z k) q)
  | PInf => false
  | NInf => true
  | NaN => false
  end.

(** [f > k] and [f < k] for a [float] f and an [int] k. *)
Definition float_gt_int (f : pyfloat) (k : Z) : bool :=
  match f with
  | Finite q => negb (Qle_bool q (inject_Z k))
  | PInf => true
  | NInf => false
  | NaN => false
  end.

Definition float_lt_int (f : pyfloat) (k : Z) : bool := int_gt_float k f.

(** The exceptions that occur in the module; [OtherException] stands for
    any exception of a library call that the module does not name. *)
Inductive exn : Type :=
  | AttributeError
  | TypeError
  | OSError
  | ServerStartupError
  | ValueError
  | OverflowError
  | OtherException (name : string).

Inductive result (A : Type) : Type :=
  | Ok (a : A)
  | Raise (e : exn).
Arguments Ok {A} a.
Arguments Raise {A} e.

(** The tree [yaml.safe_load] returns; the keys of its mappings are taken
    to be strings, as all keys the code asks for are. *)
#[warnings="-register-all"]
Inductive yaml : Type :=
  | YNull
  | YBool (b : bool)
  | YInt (z : Z)
  | YFloat (f : pyfloat)
  | YStr (s : string)
  | YList (l : list yaml)
  | YMap (m : gmap string yaml).

(** Python truthiness, as used by [if not config]. *)
Definition truthy (v : yaml) : bool :=
  match v with
  | YNull => false
  | YBool b => b
  | YInt z => negb (z =? 0)
  | YFloat (Finite q) => negb (Qeq_bool q 0)
  | YFloat _ => true
  | YStr s => negb (String.eqb s "")
  | YList l => match l with [] => false | _ => true end
  | YMap m => negb (bool_decide (m = ∅))
  end.

(** ** [LlamaServerConfig] *)

(** The dataclass performs no conversion or validation: each field holds
    whatever value the mapping carried. *)
Record LlamaServerConfig : Type := mkConfig {
  cfg_llama_cpp_repo_path : yaml;
  cfg_model_path : yaml;
  cfg_port : yaml;
  cfg_use_gpu : yaml
}.

Definition default_port : yaml := YInt 8080.
Definition default_use_gpu : yaml := YBool true.

Definition config_fields : gset string :=
  {[ "llama_cpp_repo_path"; "model_path"; "port"; "use_gpu" ]}.

(** The keyword call [cls] unpacking a dictionary [kw]: the generated
    [__init__] raises [TypeError] on an unexpected keyword and on a missing
    required one. *)
Definition cls_kwargs (kw : gmap string yaml) : result LlamaServerConfig :=
  if bool_decide (dom kw ⊆ config_fields) then
    match kw !! "llama_cpp_repo_path", kw !! "model_path" with
    | Some repo, Some model =>
        Ok {| cfg_llama_cpp_repo_path := repo;
              cfg_model_path := model;
              cfg_port := default default_port (kw !! "port");
              cfg_use_gpu := default default_use_gpu (kw !! "use_gpu") |}
    | _, _ => Raise TypeError
    end
  else Raise TypeError.

(** The call [cls] with [config] unpacked as keyword arguments: unpacking
    anything but a mapping is a [TypeError]. *)
Definition cls_splat (config : yaml) : result LlamaServerConfig :=
  match config with
  | YMap kw => cls_kwargs kw
  | _ => Raise TypeError
  end.

(** [config.get(nested_key, {})]: only dictionaries have [get]. *)
Definition yaml_get (config : yaml) (nested_key : string) : result yaml :=
  match config with
  | YMap m => Ok (default (YMap ∅) (m !! nested_key))
  | _ => Raise AttributeError
  end.

(** The [for nested_key in key_to_config] loop. *)
Fixpoint descend (config : yaml) (keys : list string) : result yaml :=
  match keys with
  | [] => Ok config
  | nested_key :: rest =>
      match yaml_get config nested_key with
      | Ok config' => descend config' rest
      | Raise e => Raise e
      end
  end.

(** [LlamaServerConfig.from_yaml], from the point where the file has been
    parsed into [data].  [key_to_config = None] is Python's [None]. *)
Definition from_yaml (data : yaml) (key_to_config : option (list string))
  : result (option LlamaServerConfig) :=
  let key_to_config := default [] key_to_config in
  match descend data key_to_config with
  | Raise e => Raise e
  | Ok config =>
      if negb (truthy config) then Ok None
      else match cls_splat config with
           | Ok c => Ok (Some c)
           | Raise e => Raise e
           end
  end.

Definition default_key_to_config : option (list string) := Some ["LlamaServer"].

(** Some key of the sequence is absent from the mapping the descent has
    reached when it asks for it. *)
Fixpoint key_missing (config : yaml) (keys : list string) : Prop :=
  match keys with
  | [] => False
  | nested_key :: rest =>
      match config with
      | YMap m =>
          match m !! nested_key with
          | None => True
          | Some config' => key_missing config' rest
          end
      | _ => False
      end
  end.

(** ** The environment of [LlamaServer] *)

(** The two ends of [requests.get(self.health_check_url)] that the poll
    handles itself: it raises [requests.exceptions.ConnectionError], which
    is caught, or returns a response.  ([reply] has the other ends.) *)
Inductive outcome : Type :=
  | ConnectionError
  | Response (status_code : Z).

(** A [subprocess.Popen] object, identified by the process it stands for. *)
Definition Popen : Type := Z.

(** What the server object does to the outside; [Sleep d] is
    [time.sleep(d)] for a finite number of seconds [d]. *)
Inductive event : Type :=
  | Spawn (command : list string) (p : Popen)
  | Get (o : outcome)
  | Sleep (seconds : Q)
  | Terminate (p : Popen)
  | Wait (p : Popen).

(** The world answers the two calls whose result the code looks at:
    process creation ([None]: [Popen] raised [OSError]) and the health
    request, which may depend on everything the poll has done so far. *)
Record world : Type := mkWorld {
  popen : list string -> option Popen;
  health : list event -> outcome
}.

(** Seconds slept in a trace. *)
Fixpoint elapsed (tr : list event) : Q :=
  match tr with
  | [] => 0%Q
  | Sleep d :: tr' => (d + elapsed tr')%Q
  | _ :: tr' => elapsed tr'
  end.

Definition is_get (e : event) : bool :=
  match e with Get _ => true | _ => false end.

Definition is_refused (e : event) : bool :=
  match e with Get ConnectionError => true | _ => false end.

Definition is_503 (e : event) : bool :=
  match e with Get (Response c) => c =? 503 | _ => false end.

(** A health request answered by a status other than 503. *)
Definition is_terminal_get (e : event) : bool :=
  match e with Get (Response c) => negb (c =? 503) | _ => false end.

Definition count (f : event -> bool) (tr : list event) : nat :=
  length (List.filter f tr).

(** ** [LlamaServer] *)

Record LlamaServer : Type := mkServer {
  llama_cpp_repo_path : string;
  model_path : string;
  port : Z;
  process : option Popen;
  use_gpu : bool;
  command : list string
}.

(** [LlamaServer.__init__]. *)
Definition LlamaServer_init (llama_cpp_repo_path model_path : string)
    (port : Z) (use_gpu : bool) : LlamaServer :=
  let command := [llama_cpp_repo_path; "-m"] ++ [model_path] in
  let command := if use_gpu then command ++ ["-ngl"; "1000"] else command in
  {| llama_cpp_repo_path := llama_cpp_repo_path;
     model_path := model_path;
     port := port;
     process := None;
     use_gpu := use_gpu;
     command := command |}.

Definition set_process (h : LlamaServer) (p : option Popen) : LlamaServer :=
  {| llama_cpp_repo_path := llama_cpp_repo_path h;
     model_path := model_path h;
     port := port h;
     process := p;
     use_gpu := use_gpu h;
     command := command h |}.

(** [LlamaServer.stop]: [self.process.terminate()] on [None] is an
    [AttributeError], raised before anything else happens. *)
Definition stop (h : LlamaServer) : result unit * LlamaServer * list event :=
  match process h with
  | None => (Raise AttributeError, h, [])
  | Some p => (Ok tt, set_process h None, [Terminate p; Wait p])
  end.

(** [LlamaServer.__del__]. *)
Definition del (h : LlamaServer) : result unit * LlamaServer * list event :=
  stop h.

(** The local variables of the polling loop. *)
Record poll_state : Type := mkPoll {
  cur_attempt : Z;
  model_loading_time : Z
}.

Definition model_loading_log_time : Z := 1.

(** How one pass through the body of [while True] ends. *)
Inductive iteration : Type :=
  | Return (b : bool)
  | Continue (st : poll_state).

(** One pass through the body of the [while True] loop of [is_running];
    [tr] is what the poll has done so far.  The request ends as [outcome]
    says and the sleeps return; [Full.loop_body] has the other cases. *)
Definition loop_body (w : world) (max_connection_attempts : Z)
    (sleep_time_between_attempts : Q)
    (max_wait_time_for_model_loading : pyfloat)
    (st : poll_state) (tr : list event) : iteration * list event :=
  let o := health w tr in
  let tr := tr ++ [Get o] in
  match o with
  | Response status_code =>
      if status_code =? 503 then
        if int_gt_float (model_loading_time st) max_wait_time_for_model_loading
        then (Return false, tr)
        else
          (Continue {| cur_attempt := cur_attempt st;
                       model_loading_time :=
                         model_loading_time st + model_loading_log_time |},
           tr ++ [Sleep (inject_Z model_loading_log_time)])
      else if status_code =? 200 then (Return true, tr)
      else (Return false, tr)
  | ConnectionError =>
      let cur_attempt' := cur_attempt st + 1 in
      if cur_attempt' >? max_connection_attempts then (Return false, tr)
      else
        (Continue {| cur_attempt := cur_attempt';
                     model_loading_time := model_loading_time st |},
         tr ++ [Sleep sleep_time_between_attempts])
  end.

(** The [while True] loop, with a bound on the number of passes. *)
Fixpoint while_true (fuel : nat) (w : world) (max_connection_attempts : Z)
    (sleep_time_between_attempts : Q)
    (max_wait_time_for_model_loading : pyfloat)
    (st : poll_state) (tr : list event) : option (bool * list event) :=
  match fuel with
  | O => None
  | S fuel' =>
      match loop_body w max_connection_attempts sleep_time_between_attempts
                      max_wait_time_for_model_loading st tr with
      | (Return b, tr') => Some (b, tr')
      | (Continue st', tr') =>
          while_true fuel' w max_connection_attempts
                     sleep_time_between_attempts
                     max_wait_time_for_model_loading st' tr'
      end
  end.

Definition initial_poll_state : poll_state :=
  {| cur_attempt := 0; model_loading_time := 0 |}.

(** [LlamaServer.is_running]: the answer and what the call did. *)
Definition is_running (fuel : nat) (w : world) (h : LlamaServer)
    (max_connection_attempts : Z) (sleep_time_between_attempts : Q)
    (max_wait_time_for_model_loading : pyfloat)
  : option (bool * list event) :=
  match process h with
  | None => Some (false, [])
  | Some _ =>
      while_true fuel w max_connection_attempts sleep_time_between_attempts
                 max_wait_time_for_model_loading initial_poll_state []
  end.

(** The default arguments of [is_running]. *)
Definition default_max_connection_attempts : Z := 10.
(** The float literal [0.01]: the double nearest to 1/100. *)
Definition default_sleep_time_between_attempts : Q :=
  (5764607523034235 # 576460752303423488)%Q.
Definition default_max_wait_time_for_model_loading : pyfloat :=
  Finite (60 # 1)%Q.

(** [LlamaServer.start]. *)
Definition start (fuel : nat) (w : world) (h : LlamaServer)
  : option (result unit * LlamaServer * list event) :=
  match popen w (command h) with
  | None => Some (Raise OSError, h, [])
  | Some p =>
      let h := set_process h (Some p) in
      let tr := [Spawn (command h) p] in
      match is_running fuel w h default_max_connection_attempts
                       default_sleep_time_between_attempts
                       default_max_wait_time_for_model_loading with
      | None => None
      | Some (true, tr') => Some (Ok tt, h, tr ++ tr')
      | Some (false, tr') =>
          match stop h with
          | (Ok _, h', tr'') =>
              Some (Raise ServerStartupError, h', tr ++ tr' ++ tr'')
          | (Raise e, h', tr'') => Some (Raise e, h', tr ++ tr' ++ tr'')
          end
      end
  end.

(** ** Worlds used in the statements *)

(** The health endpoint answers [o] to the i-th request (counting from 0). *)
Definition scripted (s : nat -> outcome) (tr : list event) : outcome :=
  s (count is_get tr).

(** The health endpoint answers 503 during the first [N] whole seconds of
    the poll and 200 afterwards; the time of a request is the time the poll
    has slept before it. *)
Definition loading_for (N : nat) (tr : list event) : outcome :=
  if Qle_bool (inject_Z (Z.of_nat N)) (elapsed tr)
  then Response 200 else Response 503.

(** The health endpoint is never reachable. *)
Definition unreachable (tr : list event) : outcome := ConnectionError.

Definition world_of (hl : list event -> outcome) : world :=
  {| popen := fun _ => Some 4242; health := hl |}.

Definition always_503 (tr : list event) : outcome := Response 503.

Definition loading_once (i : nat) : outcome :=
  match i with O => Response 503 | _ => Response 200 end.

(** What the poll looks like when it only ever sees 503 and then one last
    answer: [sleeps] passes that wait a second, and a final request. *)
Definition poll_trace (sleeps : nat) (last : outcome) : list event :=
  mjoin (replicate sleeps [Get (Response 503); Sleep 1%Q]) ++ [Get last].

(** The number of one-second waits and the answer of a poll that starts with
    the counter at [k] while the server still loads for [n] seconds. *)
Fixpoint loading_run (n : nat) (k : Z) (mw : pyfloat) : nat * bool :=
  match n with
  | O => (O, true)
  | S n' =>
      if int_gt_float k mw then (O, false)
      else let '(s, b) := loading_run n' (k + 1) mw in (S s, b)
  end.

Definition refused_trace (retries : nat) (slp : Q) : list event :=
  mjoin (replicate retries [Get ConnectionError; Sleep slp])
    ++ [Get ConnectionError].

(** The sleeps of a trace that last [d] seconds. *)
Definition is_sleep_of (d : Q) (e : event) : bool :=
  match e with Sleep d' => Qeq_bool d d' | _ => false end.

(** ** Concrete inputs *)

Definition server0 : LlamaServer :=
  LlamaServer_init "llama.cpp/server" "models/llama.gguf" 8080 true.

Definition unreachable_world : world := world_of unreachable.

Definition section_int_repo : gmap string yaml :=
  <["llama_cpp_repo_path" := YInt 5]>
    {[ "model_path" := YStr "models/llama.gguf" ]}.

Definition section_no_model : gmap string yaml :=
  {[ "llama_cpp_repo_path" := YStr "llama.cpp" ]}.

Definition data_of_section (kw : gmap string yaml) : yaml :=
  YMap {[ "LlamaServer" := YMap kw ]}.

Definition data_other_section : yaml :=
  YMap {[ "Glados" := YMap {[ "voice" := YStr "glados" ]} ]}.

(** ** The URL properties *)

(** [base_url], [completion_url] and [health_check_url]; [pretty] prints an
    integer in decimal with a leading minus sign when negative, as the
    f-strings do for [self.port]. *)
Definition base_url (h : LlamaServer) : string :=
  "http://localhost:" +:+ pretty (port h).

Definition completion_url (h : LlamaServer) : string :=
  base_url h +:+ "/completion".

Definition health_check_url (h : LlamaServer) : string :=
  base_url h +:+ "/health".

(** ** Further inputs and notions used in the statements *)

(** The tree that holds [v] under the key path [keys]. *)
Fixpoint nest (keys : list string) (v : yaml) : yaml :=
  match keys with
  | [] => v
  | k :: rest => YMap {[ k := nest rest v ]}
  end.

(** The mapping that carries the four fields of a configuration. *)
Definition config_mapping (c : LlamaServerConfig) : gmap string yaml :=
  <["llama_cpp_repo_path" := cfg_llama_cpp_repo_path c]>
    (<["model_path" := cfg_model_path c]>
       (<["port" := cfg_port c]> {[ "use_gpu" := cfg_use_gpu c ]})).

Definition is_mapping (v : yaml) : bool :=
  match v with YMap _ => true | _ => false end.

(** The health endpoint refuses the first [r] requests and answers 200 from
    then on. *)
Definition refusing_for (r i : nat) : outcome :=
  if (i <? r)%nat then ConnectionError else Response 200.

(** The events a poll can produce. *)
Definition is_poll_event (e : event) : bool :=
  match e with Get _ | Sleep _ => true | _ => false end.

(** The retries of a poll that was refused [retries] times. *)
Definition retry_trace (retries : nat) (slp : Q) : list event :=
  mjoin (replicate retries [Get ConnectionError; Sleep slp]).

(** ** All runs: the calls that can fail *)

(** The longest sleep: [time.sleep] converts the length to a 64-bit count
    of nanoseconds. *)
Definition sleep_limit : Q := (9223372036854775808 # 1000000000)%Q.

(** [time.sleep(d)]: [None] when the call sleeps and returns, otherwise the
    exception it raises: [OverflowError] for a length that does not fit the
    nanosecond count, [ValueError] for a negative length. *)
Definition time_sleep (d : Q) : option exn :=
  if Qle_bool sleep_limit d || negb (Qle_bool (- sleep_limit) d)
  then Some OverflowError
  else if Qle_bool 0 d then None
  else Some ValueError.

(** All ends of [requests.get(self.health_check_url)]: one of the two
    [outcome]s; any other exception, which [is_running] does not catch; or
    no end at all (no timeout is passed). *)
Inductive reply : Type :=
  | Replied (o : outcome)
  | Raised (e : exn)
  | NoReply.

(** The environment of all runs: process creation (the new process, or the
    exception [Popen] raised), the health request, and whether [Popen.wait]
    returns for a process that has been sent the termination signal. *)
Record environment : Type := mkEnv {
  env_popen : list string -> result Popen;
  env_get : list event -> reply;
  env_wait : Popen -> bool
}.

(** How one pass through the body of [while True] ends, in all runs. *)
Inductive pass_end : Type :=
  | Returns (r : result bool)
  | Continues (st : poll_state)
  | Blocks.

Module Full.

(** One pass through the body of the [while True] loop of [is_running].
    An exception of [requests.get] other than [ConnectionError] and an
    exception of [time.sleep] leave the loop and the method. *)
Definition loop_body (E : environment) (max_connection_attempts : Z)
    (sleep_time_between_attempts : Q)
    (max_wait_time_for_model_loading : pyfloat)
    (st : poll_state) (tr : list event) : pass_end * list event :=
  match env_get E tr with
  | NoReply => (Blocks, tr)
  | Raised e => (Returns (Raise e), tr)
  | Replied o =>
      let tr := tr ++ [Get o] in
      match o with
      | Response status_code =>
          if status_code =? 503 then
            if int_gt_float (model_loading_time st)
                            max_wait_time_for_model_loading
            then (Returns (Ok false), tr)
            else
              match time_sleep (inject_Z model_loading_log_time) with
              | Some e => (Returns (Raise e), tr)
              | None =>
                  (Continues
                     {| cur_attempt := cur_attempt st;
                        model_loading_time :=
                          model_loading_time st + model_loading_log_time |},
                   tr ++ [Sleep (inject_Z model_loading_log_time)])
              end
          else if status_code =? 200 then (Returns (Ok true), tr)
          else (Returns (Ok false), tr)
      | ConnectionError =>
          let cur_attempt' := cur_attempt st + 1 in
          if cur_attempt' >? max_connection_attempts
          then (Returns (Ok false), tr)
          else
            match time_sleep sleep_time_between_attempts with
            | Some e => (Returns (Raise e), tr)
            | None =>
                (Continues {| cur_attempt := cur_attempt';
                              model_loading_time := model_loading_time st |},
                 tr ++ [Sleep sleep_time_between_attempts])
            end
      end
  end.

(** The [while True] loop, with a bound on the number of passes; [None]
    when the bound is too small or a request never returns. *)
Fixpoint while_true (fuel : nat) (E : environment)
    (max_connection_attempts : Z) (sleep_time_between_attempts : Q)
    (max_wait_time_for_model_loading : pyfloat)
    (st : poll_state) (tr : list event)
  : option (result bool * list event) :=
  match fuel with
  | O => None
  | S fuel' =>
      match loop_body E max_connection_attempts sleep_time_between_attempts
                      max_wait_time_for_model_loading st tr with
      | (Returns r, tr') => Some (r, tr')
      | (Continues st', tr') =>
          while_true fuel' E max_connection_attempts
                     sleep_time_between_attempts
                     max_wait_time_for_model_loading st' tr'
      | (Blocks, _) => None
      end
  end.

(** [LlamaServer.is_running]. *)
Definition is_running (fuel : nat) (E : environment) (h : LlamaServer)
    (max_connection_attempts : Z) (sleep_time_between_attempts : Q)
    (max_wait_time_for_model_loading : pyfloat)
  : option (result bool * list event) :=
  match process h with
  | None => Some (Ok false, [])
  | Some _ =>
      while_true fuel E max_connection_attempts sleep_time_between_attempts
                 max_wait_time_for_model_loading initial_poll_state []
  end.

(** [LlamaServer.stop]; [None] when [self.process.wait()] never returns. *)
Definition stop (E : environment) (h : LlamaServer)
  : option (result unit * LlamaServer * list event) :=
  match process h with
  | None => Some (Raise AttributeError, h, [])
  | Some p =>
      if env_wait E p
      then Some (Ok tt, set_process h None, [Terminate p; Wait p])
      else None
  end.

(** [LlamaServer.start].  An exception that leaves [is_running] leaves
    [start] too, before [stop] is reached. *)
Definition start (fuel : nat) (E : environment) (h : LlamaServer)
  : option (result unit * LlamaServer * list event) :=
  match env_popen E (command h) with
  | Raise e => Some (Raise e, h, [])
  | Ok p =>
      let h := set_process h (Some p) in
      let tr := [Spawn (command h) p] in
      match is_running fuel E h default_max_connection_attempts
                       default_sleep_time_between_attempts
                       default_max_wait_time_for_model_loading with
      | None => None
      | Some (Raise e, tr') => Some (Raise e, h, tr ++ tr')
      | Some (Ok true, tr') => Some (Ok tt, h, tr ++ tr')
      | Some (Ok false, tr') =>
          match stop E h with
          | None => None
          | Some (Ok _, h', tr'') =>
              Some (Raise ServerStartupError, h', tr ++ tr' ++ tr'')
          | Some (Raise e, h', tr'') => Some (Raise e, h', tr ++ tr' ++ tr'')
          end
      end
  end.

End Full.

(** The environment in which every request ends as the world [w] says and
    every [Popen.wait] returns. *)
Definition env_of_world (w : world) : environment :=
  {| env_popen := fun c =>
       match popen w c with Some p => Ok p | None => Raise OSError end;
     env_get := fun tr => Replied (health w tr);
     env_wait := fun _ => true |}.

(** An environment in which the health request raises an exception that is
    not a [ConnectionError] (as [requests] does for a port outside
    0..65535). *)
Definition invalid_url_env : environment :=
  {| env_popen := fun _ => Ok 4242;
     env_get := fun _ => Raised (OtherException "InvalidURL");
     env_wait := fun _ => true |}.

(** ** Two runs of the poll *)

Example is_running_200 :
  is_running 5 (world_of (scripted (fun _ => Response 200)))
             (set_process server0 (Some 1))
             10 (1 # 100)%Q (Finite 60%Q)
  = Some (true, [Get (Response 200)]).
Proof. reflexivity. Qed.

Example is_running_loading_2 :
  is_running 5 (world_of (loading_for 2))
             (set_process server0 (Some 1))
             10 (1 # 100)%Q (Finite 60%Q)
  = Some (true, [Get (Response 503); Sleep 1%Q; Get (Response 503); Sleep 1%Q;
                 Get (Response 200)]).
Proof. reflexivity. Qed.

(** ** Auxiliary facts *)

Section Counting.
Variable f : event -> bool.

Lemma count_app (a b : list event) :
  count f (a ++ b) = (count f a + count f b)%nat.
Proof. unfold count. by rewrite List.filter_app, length_app. Qed.

Lemma count_snoc (a : list event) (e : event) :
  count f (a ++ [e]) = (count f a + if f e then 1 else 0)%nat.
Proof. rewrite count_app. unfold count. simpl. by destruct (f e). Qed.

End Counting.

Lemma elapsed_app (a b : list event) :
  (elapsed (a ++ b) == elapsed a + elapsed b)%Q.
Proof.
  induction a as [|e a IH]; simpl.
  - by rewrite Qplus_0_l.
  - destruct e; try exact IH. rewrite IH. by rewrite Qplus_assoc.
Qed.

(** The comparison [k > f] against the floor of a finite [f]. *)
Lemma int_gt_float_floor (k : Z) (q : Q) :
  int_gt_float k (Finite q) = (k >? Qfloor q).
Proof.
  unfold int_gt_float.
  destruct (Qle_bool (inject_Z k) q) eqn:E; simpl; symmetry.
  - apply Qle_bool_iff in E. apply Qfloor_resp_le in E.
    rewrite Qfloor_Z in E. lia.
  - destruct (Z.gtb_spec k (Qfloor q)) as [|Hle]; [done|exfalso].
    assert (Qle_bool (inject_Z k) q = true); [|congruence].
    apply Qle_bool_iff. apply Qle_trans with (inject_Z (Qfloor q)).
    + by rewrite <- Zle_Qle.
    + apply Qfloor_le.
Qed.

(** Once the counter exceeds the wait, it exceeds it from then on. *)
Lemma int_gt_float_mono (j k : Z) (f : pyfloat) :
  j <= k -> int_gt_float j f = true -> int_gt_float k f = true.
Proof.
  destruct f as [q| | |]; try done.
  rewrite !int_gt_float_floor. lia.
Qed.

(** More fuel does not change an answer. *)
Lemma while_true_mono (fuel fuel' : nat) w mca slp mw st tr r :
  (fuel <= fuel')%nat ->
  while_true fuel w mca slp mw st tr = Some r ->
  while_true fuel' w mca slp mw st tr = Some r.
Proof.
  revert fuel' st tr.
  induction fuel as [|fuel IH]; intros fuel' st tr Hle H; [done|].
  destruct fuel' as [|fuel']; [lia|].
  simpl in *.
  destruct (loop_body w mca slp mw st tr) as [[b|st'] tr']; [done|].
  apply IH; [lia|done].
Qed.

Lemma while_true_S (fuel : nat) w mca slp mw st tr :
  while_true (S fuel) w mca slp mw st tr =
    match loop_body w mca slp mw st tr with
    | (Return b, tr') => Some (b, tr')
    | (Continue st', tr') => while_true fuel w mca slp mw st' tr'
    end.
Proof. reflexivity. Qed.

(** The three ways through the loop body. *)
Lemma loop_body_refused w mca slp mw st tr :
  health w tr = ConnectionError ->
  loop_body w mca slp mw st tr =
    if cur_attempt st + 1 >? mca
    then (Return false, tr ++ [Get ConnectionError])
    else (Continue {| cur_attempt := cur_attempt st + 1;
                      model_loading_time := model_loading_time st |},
          (tr ++ [Get ConnectionError]) ++ [Sleep slp]).
Proof. intros H. unfold loop_body. by rewrite H. Qed.

Lemma loop_body_503 w mca slp mw st tr :
  health w tr = Response 503 ->
  loop_body w mca slp mw st tr =
    if int_gt_float (model_loading_time st) mw
    then (Return false, tr ++ [Get (Response 503)])
    else (Continue {| cur_attempt := cur_attempt st;
                      model_loading_time := model_loading_time st + 1 |},
          (tr ++ [Get (Response 503)]) ++ [Sleep 1%Q]).
Proof. intros H. unfold loop_body. by rewrite H. Qed.

Lemma loop_body_other w mca slp mw st tr c :
  health w tr = Response c -> c <> 503 ->
  loop_body w mca slp mw st tr = (Return (c =? 200), tr ++ [Get (Response c)]).
Proof.
  intros H Hc. unfold loop_body. rewrite H.
  destruct (Z.eqb_spec c 503); [done|].
  by destruct (c =? 200).
Qed.

Lemma count_get_split (tr : list event) :
  count is_get tr =
    (count is_refused tr + count is_503 tr + count is_terminal_get tr)%nat.
Proof.
  unfold count. induction tr as [|e tr IH]; [done|].
  destruct e as [| [|c] | | |]; simpl; try lia.
  destruct (c =? 503); simpl; lia.
Qed.

(** Termination of the poll for a non-negative attempt bound and a finite
    wait: both counters only grow, and each is checked against its bound in
    every pass of its branch. *)
Lemma while_true_bounded w mca slp q (n : nat) :
  forall st tr,
    cur_attempt st <= mca ->
    model_loading_time st <= Qfloor q + 1 ->
    (mca - cur_attempt st) + (Qfloor q + 1 - model_loading_time st)
      < Z.of_nat n ->
    exists b tr',
      while_true n w mca slp (Finite q) st tr = Some (b, tr')
      /\ Z.of_nat (count is_refused tr')
           <= Z.of_nat (count is_refused tr) + (mca + 1 - cur_attempt st)
      /\ Z.of_nat (count is_503 tr')
           <= Z.of_nat (count is_503 tr)
              + (Qfloor q + 2 - model_loading_time st)
      /\ (count is_terminal_get tr' <= count is_terminal_get tr + 1)%nat.
Proof.
  induction n as [|n IH]; intros st tr Hcur Hmlt Hfuel; [lia|].
  simpl. destruct (health w tr) as [|c] eqn:Ho.
  - rewrite loop_body_refused by done.
    destruct (Z.gtb_spec (cur_attempt st + 1) mca) as [Hgt|Hle].
    + eexists _, _. split; [done|].
      rewrite !count_snoc. simpl. lia.
    + destruct (IH {| cur_attempt := cur_attempt st + 1;
                      model_loading_time := model_loading_time st |}
                   ((tr ++ [Get ConnectionError]) ++ [Sleep slp]))
        as (b & tr' & Hrun & Hr & H5 & Ht); simpl; try lia.
      exists b, tr'. split; [done|].
      rewrite !count_snoc in Hr, H5, Ht. simpl in *. lia.
  - destruct (Z.eq_dec c 503) as [->|Hc].
    + rewrite loop_body_503 by done. rewrite int_gt_float_floor.
      destruct (Z.gtb_spec (model_loading_time st) (Qfloor q)) as [Hgt|Hle].
      * eexists _, _. split; [done|].
        rewrite !count_snoc. simpl. lia.
      * destruct (IH {| cur_attempt := cur_attempt st;
                        model_loading_time := model_loading_time st + 1 |}
                     ((tr ++ [Get (Response 503)]) ++ [Sleep 1%Q]))
          as (b & tr' & Hrun & Hr & H5 & Ht); simpl; try lia.
        exists b, tr'. split; [done|].
        rewrite !count_snoc in Hr, H5, Ht. simpl in *. lia.
    + rewrite (loop_body_other _ _ _ _ _ _ c) by done.
      eexists _, _. split; [done|].
      rewrite !count_snoc. simpl.
      destruct (Z.eqb_spec c 503); [done|]. simpl. lia.
Qed.

(** *** A server that loads its model for [N] seconds *)

Lemma float_gt_int_not_lt (f : pyfloat) (j k : Z) :
  j <= k -> float_gt_int f k = true -> int_gt_float j f = false.
Proof.
  destruct f as [q| | |]; try done. simpl. intros Hjk H.
  apply negb_true_iff in H. apply negb_false_iff, Qle_bool_iff.
  destruct (Qlt_le_dec q (inject_Z j)) as [Hlt|]; [exfalso|done].
  assert (Qle_bool q (inject_Z k) = true); [|congruence].
  apply Qle_bool_iff, Qlt_le_weak, Qlt_le_trans with (inject_Z j); [done|].
  by rewrite <- Zle_Qle.
Qed.

Lemma loading_for_at (N : nat) (tr : list event) (k : Z) :
  (elapsed tr == inject_Z k)%Q ->
  loading_for N tr = if Z.of_nat N <=? k then Response 200 else Response 503.
Proof.
  intros He. unfold loading_for.
  destruct (Z.leb_spec (Z.of_nat N) k) as [Hle|Hgt].
  - replace (Qle_bool _ _) with true; [done|].
    symmetry. apply Qle_bool_iff. rewrite He. by rewrite <- Zle_Qle.
  - destruct (Qle_bool _ _) eqn:E; [exfalso|done].
    apply Qle_bool_iff in E. rewrite He in E. rewrite <- Zle_Qle in E. lia.
Qed.

Lemma while_true_loading w (N : nat) mca slp mw :
  health w = loading_for N ->
  forall (n : nat) st tr,
    Z.of_nat N = model_loading_time st + Z.of_nat n ->
    (elapsed tr == inject_Z (model_loading_time st))%Q ->
    while_true (S n) w mca slp mw st tr =
      let '(s, b) := loading_run n (model_loading_time st) mw in
      Some (b, tr ++ poll_trace s (Response (if b then 200 else 503))).
Proof.
  intros Hw. induction n as [|n IH]; intros st tr HN He.
  - rewrite while_true_S. cbn [loading_run].
    rewrite (loop_body_other _ _ _ _ _ _ 200); [done| |done].
    rewrite Hw, (loading_for_at _ _ _ He).
    destruct (Z.leb_spec (Z.of_nat N) (model_loading_time st)); [done|lia].
  - rewrite while_true_S. cbn [loading_run].
    rewrite loop_body_503.
    2:{ rewrite Hw, (loading_for_at _ _ _ He).
        destruct (Z.leb_spec (Z.of_nat N) (model_loading_time st)); [lia|done]. }
    destruct (int_gt_float (model_loading_time st) mw); [done|].
    rewrite IH; simpl.
    + destruct (loading_run n (model_loading_time st + 1) mw) as [s b].
      unfold poll_trace. simpl. by rewrite <- !app_assoc.
    + lia.
    + rewrite !elapsed_app, He. simpl. rewrite inject_Z_plus. ring.
Qed.

Lemma loading_run_answer (n : nat) (k : Z) (mw : pyfloat) :
  (loading_run n k mw).2 =
    (n =? 0)%nat || negb (int_gt_float (k + Z.of_nat n - 1) mw).
Proof.
  revert k. induction n as [|n IH]; intros k; [done|].
  cbn [loading_run]. destruct (int_gt_float k mw) eqn:E.
  - simpl. rewrite (int_gt_float_mono k) by (done || lia). done.
  - specialize (IH (k + 1)).
    destruct (loading_run n (k + 1) mw) as [s b].
    change ((S s, b).2) with b. change ((s, b).2) with b in IH. rewrite IH.
    destruct n as [|n].
    + replace (k + Z.of_nat 1 - 1) with k by lia. by rewrite E.
    + replace (k + 1 + Z.of_nat (S n) - 1) with (k + Z.of_nat (S (S n)) - 1)
        by lia.
      done.
Qed.

Lemma loading_run_sleeps (n : nat) (k : Z) (mw : pyfloat) :
  let '(s, b) := loading_run n k mw in
  (forall j, k <= j < k + Z.of_nat s -> int_gt_float j mw = false)
  /\ (if b then s = n
      else (s < n)%nat /\ int_gt_float (k + Z.of_nat s) mw = true).
Proof.
  revert k. induction n as [|n IH]; intros k.
  - simpl. split; [lia|done].
  - cbn [loading_run]. destruct (int_gt_float k mw) eqn:E.
    + split; [lia|]. split; [lia|]. by replace (k + Z.of_nat 0) with k by lia.
    + specialize (IH (k + 1)).
      destruct (loading_run n (k + 1) mw) as [s b].
      destruct IH as [Hbefore Hb]. split.
      * intros j Hj. destruct (Z.eq_dec j k) as [->|]; [done|].
        apply Hbefore. lia.
      * destruct b; [lia|]. destruct Hb as [? Hgt]. split; [lia|].
        by replace (k + Z.of_nat (S s)) with (k + 1 + Z.of_nat s) by lia.
Qed.

(** *** A server that is never reachable *)

Lemma while_true_unreachable w mca slp mw :
  (forall tr, health w tr = ConnectionError) ->
  forall (m : nat) st tr,
    m = Z.to_nat (mca - cur_attempt st) ->
    while_true (S m) w mca slp mw st tr = Some (false, tr ++ refused_trace m slp).
Proof.
  intros Hw. induction m as [|m IH]; intros st tr Hm;
    rewrite while_true_S, loop_body_refused by done.
  - destruct (Z.gtb_spec (cur_attempt st + 1) mca); [done|lia].
  - destruct (Z.gtb_spec (cur_attempt st + 1) mca); [lia|].
    rewrite IH by (simpl; lia).
    unfold refused_trace. simpl. by rewrite <- !app_assoc.
Qed.

(** *** A server that answers 503 for ever *)

Lemma while_true_503_forever w mca slp (fuel : nat) :
  (forall tr, health w tr = Response 503) ->
  forall st tr, while_true fuel w mca slp PInf st tr = None.
Proof.
  intros Hw. induction fuel as [|fuel IH]; intros st tr; [done|].
  rewrite while_true_S, loop_body_503 by done. simpl. apply IH.
Qed.

(** *** [from_yaml] *)

Lemma descend_empty (keys : list string) :
  descend (YMap ∅) keys = Ok (YMap ∅).
Proof.
  induction keys as [|k keys IH]; [done|].
  simpl. by rewrite lookup_empty.
Qed.

Lemma descend_key_missing (keys : list string) :
  forall config, key_missing config keys -> descend config keys = Ok (YMap ∅).
Proof.
  induction keys as [|k keys IH]; intros config H; [done|].
  destruct config as [| | | | | |m]; try done. simpl in *.
  destruct (m !! k) as [v|]; simpl; [by apply IH|apply descend_empty].
Qed.

(** *** All runs *)

Lemma time_sleep_accepts (d : Q) : time_sleep d = None -> (0 <= d)%Q.
Proof.
  unfold time_sleep. destruct (_ || _); [done|].
  destruct (Qle_bool 0 d) eqn:E; [|done]. intros _. by apply Qle_bool_iff.
Qed.

(** [time.sleep] accepts exactly the lengths from 0 up to the limit. *)
Lemma time_sleep_none_iff (d : Q) :
  time_sleep d = None <-> (0 <= d)%Q /\ (d < sleep_limit)%Q.
Proof.
  unfold time_sleep. split.
  - destruct (Qle_bool sleep_limit d) eqn:Hhi; [done|]. simpl.
    destruct (Qle_bool (- sleep_limit) d); [|done]. simpl.
    destruct (Qle_bool 0 d) eqn:Hlo; [|done]. intros _. split.
    + by apply Qle_bool_iff.
    + apply Qnot_le_lt. intros Hle. apply Qle_bool_iff in Hle. congruence.
  - intros [Hlo Hhi].
    assert (Qle_bool sleep_limit d = false) as ->.
    { destruct (Qle_bool sleep_limit d) eqn:E; [|done].
      apply Qle_bool_iff in E. by apply Qle_not_lt in E. }
    assert (Qle_bool (- sleep_limit) d = true) as ->.
    { apply Qle_bool_iff. apply Qle_trans with 0%Q; [|done].
      vm_compute. discriminate. }
    simpl. assert (Qle_bool 0 d = true) as ->; [|done].
    by apply Qle_bool_iff.
Qed.

Lemma time_sleep_one : time_sleep (inject_Z model_loading_log_time) = None.
Proof. reflexivity. Qed.

Lemma time_sleep_default :
  time_sleep default_sleep_time_between_attempts = None.
Proof. reflexivity. Qed.

Lemma full_while_true_S (fuel : nat) E mca slp mw st tr :
  Full.while_true (S fuel) E mca slp mw st tr =
    match Full.loop_body E mca slp mw st tr with
    | (Returns r, tr') => Some (r, tr')
    | (Continues st', tr') => Full.while_true fuel E mca slp mw st' tr'
    | (Blocks, _) => None
    end.
Proof. reflexivity. Qed.

(** Where every request ends in a refusal or a response and the retry
    delay is a length [time.sleep] accepts, the poll of all runs is the
    poll described by [while_true]. *)
Lemma full_while_true_agrees (fuel : nat) E w mca slp mw :
  (forall tr, env_get E tr = Replied (health w tr)) ->
  time_sleep slp = None ->
  forall st tr,
    Full.while_true fuel E mca slp mw st tr =
      match while_true fuel w mca slp mw st tr with
      | Some (b, tr') => Some (Ok b, tr')
      | None => None
      end.
Proof.
  intros HE Hslp. induction fuel as [|fuel IH]; intros st tr; [done|].
  rewrite full_while_true_S, while_true_S.
  unfold Full.loop_body, loop_body. rewrite HE, Hslp, time_sleep_one.
  destruct (health w tr) as [|c].
  - destruct (cur_attempt st + 1 >? mca); [done|apply IH].
  - destruct (c =? 503).
    + destruct (int_gt_float (model_loading_time st) mw); [done|apply IH].
    + by destruct (c =? 200).
Qed.

Lemma full_is_running_agrees (fuel : nat) E w h mca slp mw :
  (forall tr, env_get E tr = Replied (health w tr)) ->
  time_sleep slp = None ->
  Full.is_running fuel E h mca slp mw =
    match is_running fuel w h mca slp mw with
    | Some (b, tr) => Some (Ok b, tr)
    | None => None
    end.
Proof.
  intros HE Hslp. unfold Full.is_running, is_running.
  destruct (process h); [|done]. by apply full_while_true_agrees.
Qed.

(** Under the same conditions, and when process creation is as in [w]
    (it succeeds or raises [OSError]) and [Popen.wait] returns,
    [Full.start] is [start]. *)
Lemma full_start_agrees (fuel : nat) E w h :
  (forall tr, env_get E tr = Replied (health w tr)) ->
  (forall c, env_popen E c
             = match popen w c with Some p => Ok p | None => Raise OSError end) ->
  (forall p, env_wait E p = true) ->
  Full.start fuel E h = start fuel w h.
Proof.
  intros HE Hpopen Hwait. unfold Full.start, start. rewrite Hpopen.
  destruct (popen w (command h)) as [p|]; [|done]. cbn zeta.
  rewrite (full_is_running_agrees fuel E w _ _ _ _ HE time_sleep_default).
  destruct (is_running fuel w _ _ _ _) as [[[|] tr]|]; [done| |done].
  unfold Full.stop, stop. cbn [process set_process]. by rewrite Hwait.
Qed.

(** Termination of the poll in all runs in which every request ends: for a
    non-negative attempt bound, an accepted retry delay and a finite wait
    the poll returns or raises; it only requests and sleeps; what it may
    still sleep is bounded; it answers true only after a 200; and it raises
    only what a request raised. *)
Lemma full_while_true_bounded E mca slp q (n : nat) :
  (forall tr, env_get E tr <> NoReply) ->
  time_sleep slp = None ->
  forall st tr,
    cur_attempt st <= mca ->
    model_loading_time st <= Qfloor q + 1 ->
    (mca - cur_attempt st) + (Qfloor q + 1 - model_loading_time st)
      < Z.of_nat n ->
    forallb is_poll_event tr = true ->
    exists r tr',
      Full.while_true n E mca slp (Finite q) st tr = Some (r, tr')
      /\ forallb is_poll_event tr' = true
      /\ (elapsed tr' <= elapsed tr
                         + inject_Z (mca - cur_attempt st) * slp
                         + inject_Z (Qfloor q + 1 - model_loading_time st))%Q
      /\ match r with
         | Ok true => exists pre, tr' = pre ++ [Get (Response 200)]
         | Ok false => True
         | Raise e => exists tr0, env_get E tr0 = Raised e
         end.
Proof.
  intros Hends Hslp. pose proof (time_sleep_accepts slp Hslp) as Hpos.
  induction n as [|n IH]; intros st tr Hcur Hmlt Hfuel Htr; [lia|].
  rewrite full_while_true_S. unfold Full.loop_body.
  assert (Hnow : (elapsed tr <= elapsed tr
                    + inject_Z (mca - cur_attempt st) * slp
                    + inject_Z (Qfloor q + 1 - model_loading_time st))%Q).
  { assert (0 <= inject_Z (mca - cur_attempt st))%Q
      by (change 0%Q with (inject_Z 0); rewrite <- Zle_Qle; lia).
    assert (0 <= inject_Z (Qfloor q + 1 - model_loading_time st))%Q
      by (change 0%Q with (inject_Z 0); rewrite <- Zle_Qle; lia).
    assert (0 <= inject_Z (mca - cur_attempt st) * slp)%Q
      by (by apply Qmult_le_0_compat).
    lra. }
  destruct (env_get E tr) as [o|e|] eqn:Ho; [| |by destruct (Hends tr)].
  2:{ exists (Raise e), tr. split; [done|]. split; [done|]. split; [done|].
      by exists tr. }
  assert (Hget : forallb is_poll_event (tr ++ [Get o]) = true)
    by (by rewrite forallb_app, Htr).
  assert (Hsl : forall d,
             forallb is_poll_event ((tr ++ [Get o]) ++ [Sleep d]) = true)
    by (intros d; by rewrite forallb_app, Hget).
  assert (Hstop : (elapsed (tr ++ [Get o]) <= elapsed tr
                     + inject_Z (mca - cur_attempt st) * slp
                     + inject_Z (Qfloor q + 1 - model_loading_time st))%Q).
  { rewrite elapsed_app. simpl. lra. }
  destruct o as [|c].
  - destruct (Z.gtb_spec (cur_attempt st + 1) mca) as [Hgt|Hle].
    + exists (Ok false), (tr ++ [Get ConnectionError]). done.
    + rewrite Hslp.
      destruct (IH {| cur_attempt := cur_attempt st + 1;
                      model_loading_time := model_loading_time st |}
                   ((tr ++ [Get ConnectionError]) ++ [Sleep slp]))
        as (r & tr' & Hrun & Hev & Hel & Hr); simpl; try lia; [done|].
      exists r, tr'. split; [done|]. split; [done|]. split; [|done].
      rewrite !elapsed_app in Hel. simpl in Hel.
      replace (mca - (cur_attempt st + 1))
        with ((mca - cur_attempt st) + -1) in Hel by lia.
      rewrite inject_Z_plus in Hel.
      change (inject_Z (-1)) with (-1 # 1)%Q in Hel. lra.
  - destruct (Z.eqb_spec c 503) as [->|Hc].
    + rewrite int_gt_float_floor.
      destruct (Z.gtb_spec (model_loading_time st) (Qfloor q)) as [Hgt|Hle].
      * exists (Ok false), (tr ++ [Get (Response 503)]). done.
      * rewrite time_sleep_one.
        destruct (IH {| cur_attempt := cur_attempt st;
                        model_loading_time := model_loading_time st + 1 |}
                     ((tr ++ [Get (Response 503)]) ++ [Sleep 1%Q]))
          as (r & tr' & Hrun & Hev & Hel & Hr); simpl; try lia; [done|].
        exists r, tr'. split; [done|]. split; [done|]. split; [|done].
        rewrite !elapsed_app in Hel. simpl in Hel.
        replace (Qfloor q + 1 - (model_loading_time st + 1))
          with ((Qfloor q + 1 - model_loading_time st) + -1) in Hel by lia.
        rewrite inject_Z_plus in Hel.
        change (inject_Z (-1)) with (-1 # 1)%Q in Hel. lra.
    + destruct (Z.eqb_spec c 200) as [->|H200].
      * exists (Ok true), (tr ++ [Get (Response 200)]).
        split; [done|]. split; [done|]. split; [done|]. by exists tr.
      * exists (Ok false), (tr ++ [Get (Response c)]). done.
Qed.

(** With an accepted retry delay, an exception that leaves the poll is one
    that a health request raised. *)
Lemma full_while_true_raises E mca slp mw (n : nat) :
  time_sleep slp = None ->
  forall st tr e tr',
    Full.while_true n E mca slp mw st tr = Some (Raise e, tr') ->
    exists tr0, env_get E tr0 = Raised e.
Proof.
  intros Hslp. induction n as [|n IH]; intros st tr e tr' Hrun; [done|].
  rewrite full_while_true_S in Hrun. unfold Full.loop_body in Hrun.
  rewrite Hslp, time_sleep_one in Hrun.
  destruct (env_get E tr) as [[|c]|e0|] eqn:Ho; [| | |done].
  - destruct (cur_attempt st + 1 >? mca); [done|]. by eapply IH.
  - destruct (c =? 503).
    + destruct (int_gt_float (model_loading_time st) mw); [done|].
      by eapply IH.
    + by destruct (c =? 200).
  - injection Hrun as <- <-. by exists tr.
Qed.

(** ** The properties *)

(** C1: when [start] has spawned a process and the readiness check that
    follows answers false, [start] raises [ServerStartupError]; before it
    raises it has run [stop] (terminate, then wait, on the process it
    spawned), and the handle it leaves behind owns no process. *)
Theorem start_failure_clears_process (fuel : nat) w h p tr :
  popen w (command h) = Some p ->
  is_running fuel w (set_process h (Some p))
             default_max_connection_attempts
             default_sleep_time_between_attempts
             default_max_wait_time_for_model_loading = Some (false, tr) ->
  exists h',
    start fuel w h =
      Some (Raise ServerStartupError, h',
            [Spawn (command h) p] ++ tr ++ [Terminate p; Wait p])
    /\ process h' = None.
Proof.
  intros Hp Hrun. exists (set_process h None).
  unfold start. rewrite Hp. cbn zeta. rewrite Hrun. done.
Qed.

Lemma start_failure_clears_process_witness :
  popen unreachable_world (command server0) = Some 4242
  /\ is_running 20 unreachable_world (set_process server0 (Some 4242))
                default_max_connection_attempts
                default_sleep_time_between_attempts
                default_max_wait_time_for_model_loading
     = Some (false, refused_trace 10 default_sleep_time_between_attempts)
  /\ exists h',
       start 20 unreachable_world server0 =
         Some (Raise ServerStartupError, h',
               [Spawn (command server0) 4242]
                 ++ refused_trace 10 default_sleep_time_between_attempts
                 ++ [Terminate 4242; Wait 4242])
       /\ process h' = None.
Proof.
  split; [reflexivity|]. split; [reflexivity|].
  apply (start_failure_clears_process 20 unreachable_world server0 4242);
    reflexivity.
Defined.

(** C2: [stop] on a handle that owns no process.  The method dereferences
    [self.process] without a test, so the call raises [AttributeError]; the
    same happens on the second of two [stop] calls in a row, and in
    [__del__] after a [stop]. *)
Theorem stop_without_process_raises :
  (forall e m port g,
     stop (LlamaServer_init e m port g)
       = (Raise AttributeError, LlamaServer_init e m port g, []))
  /\ (forall h p,
        let h1 := (stop (set_process h (Some p))).1.2 in
        stop (set_process h (Some p))
          = (Ok tt, h1, [Terminate p; Wait p])
        /\ stop h1 = (Raise AttributeError, h1, [])
        /\ del h1 = (Raise AttributeError, h1, [])).
Proof. split; [done|]. intros h p. simpl. done. Qed.

(** C3: the launch command is a function of the descriptor alone: it is
    [[executable; "-m"; model]], followed by [["-ngl"; "1000"]] exactly when
    the GPU flag is set; equal descriptors give equal commands. *)
Theorem command_of_descriptor (e m : string) (port : Z) :
  command (LlamaServer_init e m port false) = [e; "-m"; m]
  /\ command (LlamaServer_init e m port true)
       = [e; "-m"; m] ++ ["-ngl"; "1000"]
  /\ (forall g e' m' port' g',
        (e, m, port, g) = (e', m', port', g') ->
        command (LlamaServer_init e m port g)
          = command (LlamaServer_init e' m' port' g')).
Proof.
  split; [done|]. split; [done|].
  intros g e' m' port' g' Heq. by injection Heq as -> -> -> ->.
Qed.

Lemma command_of_descriptor_witness :
  ("server", "model.gguf", 8080, true) = ("server", "model.gguf", 8080, true)
  /\ command (LlamaServer_init "server" "model.gguf" 8080 true)
       = command (LlamaServer_init "server" "model.gguf" 8080 true).
Proof.
  split; [reflexivity|].
  apply (proj2 (proj2 (command_of_descriptor "server" "model.gguf" 8080))).
  reflexivity.
Defined.

(** C4: on a handle that owns no process, [is_running] answers false for
    all arguments and sends no request to the health endpoint. *)
Theorem is_running_without_process (fuel : nat) w h mca slp mw :
  process h = None ->
  exists tr,
    is_running fuel w h mca slp mw = Some (false, tr)
    /\ count is_get tr = 0%nat.
Proof. intros H. exists []. unfold is_running. by rewrite H. Qed.

Lemma is_running_without_process_witness :
  process server0 = None
  /\ exists tr,
       is_running 0 unreachable_world server0 (-3) (1 # 2)%Q NaN
         = Some (false, tr)
       /\ count is_get tr = 0%nat.
Proof.
  split; [reflexivity|].
  apply (is_running_without_process 0 unreachable_world server0); reflexivity.
Defined.

(** C5, as the code has it: against a health endpoint that answers 503 for
    the first [N] whole seconds and 200 afterwards, [is_running] returns
    (it cannot raise), after [sleeps] passes that each slept one second and
    advanced the loading counter by one, followed by one last request.
    A 503 pass fails exactly when the counter exceeds the wait at that
    moment.  The answer is true exactly when [N] is 0 or [N - 1] does not
    exceed the wait: so a wait above [N] gives true, and with [N >= 1] a wait
    below [N - 1] gives false. *)
Theorem is_running_loading (fuel N : nat) w h p mca slp mw :
  process h = Some p ->
  health w = loading_for N ->
  (N < fuel)%nat ->
  let answer := (N =? 0)%nat || negb (int_gt_float (Z.of_nat N - 1) mw) in
  (exists sleeps,
     is_running fuel w h mca slp mw
       = Some (answer,
               poll_trace sleeps (Response (if answer then 200 else 503)))
     /\ (forall j, 0 <= j < Z.of_nat sleeps -> int_gt_float j mw = false)
     /\ (if answer then sleeps = N
         else (sleeps < N)%nat /\ int_gt_float (Z.of_nat sleeps) mw = true))
  /\ (forall st tr,
        health w tr = Response 503 ->
        loop_body w mca slp mw st tr =
          if int_gt_float (model_loading_time st) mw
          then (Return false, tr ++ [Get (Response 503)])
          else (Continue {| cur_attempt := cur_attempt st;
                            model_loading_time := model_loading_time st + 1 |},
                (tr ++ [Get (Response 503)]) ++ [Sleep 1%Q]))
  /\ (float_gt_int mw (Z.of_nat N) = true -> answer = true)
  /\ ((1 <= N)%nat -> float_lt_int mw (Z.of_nat N - 1) = true ->
      answer = false).
Proof.
  intros Hp Hw Hfuel answer. repeat split.
  - pose proof (while_true_loading w N mca slp mw Hw N initial_poll_state [])
      as Hrun.
    pose proof (loading_run_answer N 0 mw) as Hans.
    pose proof (loading_run_sleeps N 0 mw) as Hsl.
    cbn [model_loading_time initial_poll_state] in Hrun.
    destruct (loading_run N 0 mw) as [s b].
    change ((s, b).2) with b in Hans.
    replace (0 + Z.of_nat N - 1) with (Z.of_nat N - 1) in Hans by lia.
    fold answer in Hans. subst b. destruct Hsl as [Hbefore Hend].
    exists s. split; [|split].
    + unfold is_running. rewrite Hp.
      apply (while_true_mono (S N)); [lia|].
      rewrite Hrun; [done|lia|done].
    + intros j Hj. apply Hbefore. lia.
    + destruct answer; [done|]. by rewrite Z.add_0_l in Hend.
  - intros st tr H. by apply loop_body_503.
  - intros Hgt. unfold answer.
    rewrite (float_gt_int_not_lt mw (Z.of_nat N - 1) (Z.of_nat N)) by (done || lia).
    apply orb_true_r.
  - intros HN Hlt. unfold answer. unfold float_lt_int in Hlt. rewrite Hlt.
    destruct N; [lia|done].
Qed.

Lemma is_running_loading_witness :
  let h := set_process server0 (Some 4242) in
  let w := world_of (loading_for 3) in
  process h = Some 4242
  /\ health w = loading_for 3
  /\ (3 < 4)%nat
  /\ (exists sleeps,
        is_running 4 w h 10 (1 # 100)%Q (Finite (3 # 2)%Q)
          = Some (false, poll_trace sleeps (Response 503))
        /\ (forall j, 0 <= j < Z.of_nat sleeps ->
            int_gt_float j (Finite (3 # 2)%Q) = false)
        /\ (sleeps < 3)%nat
        /\ int_gt_float (Z.of_nat sleeps) (Finite (3 # 2)%Q) = true).
Proof.
  intros h w. split; [reflexivity|]. split; [reflexivity|]. split; [lia|].
  apply (proj1 (is_running_loading 4 3 w h 4242 10 (1 # 100)%Q
                  (Finite (3 # 2)%Q) eq_refl eq_refl ltac:(lia))).
Defined.

(** The sentence of C5 that does not hold: with [N = 1] and a wait of 0
    seconds (a wait below [N]) the poll answers true. *)
Lemma is_running_loading_short_wait :
  let h := set_process server0 (Some 4242) in
  let w := world_of (loading_for 1) in
  float_lt_int (Finite 0%Q) 1 = true
  /\ is_running 2 w h 10 (1 # 100)%Q (Finite 0%Q)
       = Some (true, [Get (Response 503); Sleep 1%Q; Get (Response 200)])
  /\ (forall fuel tr,
        is_running fuel w h 10 (1 # 100)%Q (Finite 0%Q) <> Some (false, tr)).
Proof.
  intros h w. split; [reflexivity|]. split; [reflexivity|].
  intros [|[|fuel]] tr; try done.
Qed.

(** C6, as the code has it: for a retry delay that [time.sleep] accepts,
    a refused connection never makes [is_running] raise.  A pass that meets
    one adds one to the attempt counter and returns plain false exactly
    when the counter then exceeds [max_connection_attempts]; otherwise it
    sleeps and polls again.  Against an endpoint that is never reachable,
    [is_running] therefore answers false.  Whatever the endpoint does, an
    exception that leaves [is_running] is one that a health request raised
    (and that is not a [ConnectionError]).  Only [start] turns a false
    answer into [ServerStartupError]. *)
Theorem refused_connection_never_raises E mca slp mw :
  time_sleep slp = None ->
  (forall st tr,
     env_get E tr = Replied ConnectionError ->
     Full.loop_body E mca slp mw st tr =
       if cur_attempt st + 1 >? mca
       then (Returns (Ok false), tr ++ [Get ConnectionError])
       else (Continues {| cur_attempt := cur_attempt st + 1;
                          model_loading_time := model_loading_time st |},
             (tr ++ [Get ConnectionError]) ++ [Sleep slp]))
  /\ (forall (fuel : nat) h p,
        process h = Some p ->
        (forall tr, env_get E tr = Replied ConnectionError) ->
        (Z.to_nat mca < fuel)%nat ->
        Full.is_running fuel E h mca slp mw
          = Some (Ok false, refused_trace (Z.to_nat mca) slp))
  /\ (forall (fuel : nat) h e tr,
        Full.is_running fuel E h mca slp mw = Some (Raise e, tr) ->
        exists tr0, env_get E tr0 = Raised e)
  /\ (forall (fuel : nat) h p b tr,
        env_popen E (command h) = Ok p ->
        env_wait E p = true ->
        Full.is_running fuel E (set_process h (Some p))
                        default_max_connection_attempts
                        default_sleep_time_between_attempts
                        default_max_wait_time_for_model_loading
          = Some (Ok b, tr) ->
        (b = false <->
         exists h' tr',
           Full.start fuel E h = Some (Raise ServerStartupError, h', tr'))).
Proof.
  intros Hslp. split; [|split; [|split]].
  - intros st tr H. unfold Full.loop_body. rewrite H, Hslp. done.
  - intros fuel h p Hp HE Hfuel.
    rewrite (full_is_running_agrees fuel E
               {| popen := fun _ => None; health := unreachable |}) by done.
    unfold is_running. rewrite Hp.
    rewrite (while_true_mono (S (Z.to_nat mca)) fuel _ _ _ _ _ _
               (false, refused_trace (Z.to_nat mca) slp)); [done|lia|].
    rewrite (while_true_unreachable _ mca slp mw); [done|done|].
    simpl. f_equal. lia.
  - intros fuel h e tr. unfold Full.is_running.
    destruct (process h); [|done]. by apply full_while_true_raises.
  - intros fuel h p b tr Hp Hwait Hrun. unfold Full.start. rewrite Hp.
    cbn zeta. rewrite Hrun. destruct b.
    + split; [done|]. by intros (h' & tr' & ?).
    + unfold Full.stop. cbn [process set_process]. rewrite Hwait.
      split; [|done]. intros _. by eexists _, _.
Qed.

Lemma refused_connection_never_raises_witness :
  let E := env_of_world unreachable_world in
  let h := set_process server0 (Some 4242) in
  let st := {| cur_attempt := 2; model_loading_time := 5 |} in
  time_sleep (1 # 100)%Q = None
  /\ (env_get E [] = Replied ConnectionError
      /\ Full.loop_body E 2 (1 # 100)%Q (Finite 60%Q) st []
           = (Returns (Ok false), [Get ConnectionError]))
  /\ (process h = Some 4242
      /\ (forall tr, env_get E tr = Replied ConnectionError)
      /\ (Z.to_nat 2 < 3)%nat
      /\ Full.is_running 3 E h 2 (1 # 100)%Q (Finite 60%Q)
           = Some (Ok false, refused_trace (Z.to_nat 2) (1 # 100)%Q))
  /\ (env_popen E (command server0) = Ok 4242
      /\ env_wait E 4242 = true
      /\ Full.is_running 20 E h
                         default_max_connection_attempts
                         default_sleep_time_between_attempts
                         default_max_wait_time_for_model_loading
         = Some (Ok false,
                 refused_trace 10 default_sleep_time_between_attempts)
      /\ (false = false <->
          exists h' tr',
            Full.start 20 E server0
              = Some (Raise ServerStartupError, h', tr'))).
Proof.
  intros E h st.
  assert (Hslp : time_sleep (1 # 100)%Q = None) by reflexivity.
  pose proof (refused_connection_never_raises E 2 (1 # 100)%Q (Finite 60%Q)
                Hslp) as (Hpass & Hrun & _ & _).
  pose proof (refused_connection_never_raises E 2 (1 # 100)%Q (Finite 60%Q)
                Hslp) as (_ & _ & _ & Hstart).
  split; [exact Hslp|]. split; [|split].
  - split; [reflexivity|]. apply (Hpass st [] eq_refl).
  - split; [reflexivity|]. split; [reflexivity|]. split; [simpl; lia|].
    apply (Hrun 3%nat h 4242 eq_refl (fun _ => eq_refl)). simpl; lia.
  - split; [reflexivity|]. split; [reflexivity|]. split; [reflexivity|].
    apply (Hstart 20%nat server0 4242 false
             (refused_trace 10 default_sleep_time_between_attempts)
             eq_refl eq_refl eq_refl).
Defined.

(** The sentence of C6 that does not hold for all arguments: with a
    negative [sleep_time_between_attempts] the first refused connection
    that does not exhaust the attempts makes [is_running] raise the
    [ValueError] of [time.sleep]. *)
Lemma refused_connection_negative_delay :
  let E := env_of_world unreachable_world in
  let h := set_process server0 (Some 4242) in
  time_sleep (-1 # 1)%Q = Some ValueError
  /\ (forall fuel,
        Full.is_running (S fuel) E h 2 (-1 # 1)%Q (Finite 60%Q)
          = Some (Raise ValueError, [Get ConnectionError])).
Proof. intros E h. split; [reflexivity|]. intros fuel. reflexivity. Qed.

(** C7, as the code has it: a pass of the polling loop that does not return
    is of one of two kinds.  After a refused connection it sleeps
    [sleep_time_between_attempts], once.  After a 503 it sleeps one second
    and goes straight to the next pass ([continue]): the
    [sleep_time_between_attempts] delay is not applied. *)
Theorem nonterminal_pass_sleeps w mca slp mw st tr st' tr' :
  loop_body w mca slp mw st tr = (Continue st', tr') ->
  (health w tr = ConnectionError
   /\ tr' = tr ++ [Get ConnectionError; Sleep slp]
   /\ st' = {| cur_attempt := cur_attempt st + 1;
               model_loading_time := model_loading_time st |})
  \/ (health w tr = Response 503
      /\ tr' = tr ++ [Get (Response 503); Sleep 1%Q]
      /\ st' = {| cur_attempt := cur_attempt st;
                  model_loading_time := model_loading_time st + 1 |}).
Proof.
  intros H. destruct (health w tr) as [|c] eqn:Ho.
  - left. rewrite loop_body_refused in H by done.
    destruct (cur_attempt st + 1 >? mca); [done|].
    injection H as <- <-. by rewrite <- app_assoc.
  - destruct (Z.eq_dec c 503) as [->|Hc].
    + right. rewrite loop_body_503 in H by done.
      destruct (int_gt_float (model_loading_time st) mw); [done|].
      injection H as <- <-. by rewrite <- app_assoc.
    + by rewrite (loop_body_other _ _ _ _ _ _ c) in H.
Qed.

Lemma nonterminal_pass_sleeps_witness :
  let w := world_of (scripted loading_once) in
  let st' := {| cur_attempt := 0; model_loading_time := 1 |} in
  let tr' := [Get (Response 503); Sleep 1%Q] in
  loop_body w 10 (1 # 100)%Q (Finite 60%Q) initial_poll_state []
    = (Continue st', tr')
  /\ ((health w [] = ConnectionError
       /\ tr' = [] ++ [Get ConnectionError; Sleep (1 # 100)%Q]
       /\ st' = {| cur_attempt := 0 + 1; model_loading_time := 0 |})
      \/ (health w [] = Response 503
          /\ tr' = [] ++ [Get (Response 503); Sleep 1%Q]
          /\ st' = {| cur_attempt := 0; model_loading_time := 0 + 1 |})).
Proof.
  intros w st' tr'. split; [reflexivity|].
  apply (nonterminal_pass_sleeps w 10 (1 # 100)%Q (Finite 60%Q)
           initial_poll_state [] st' tr').
  reflexivity.
Defined.

(** The sentence of C7 that does not hold: a pass that met a 503 and did not
    return has slept one second and nothing else; in the whole poll below,
    whose first pass is such a pass, no sleep of
    [sleep_time_between_attempts] occurs. *)
Lemma pass_503_skips_delay :
  let w := world_of (scripted loading_once) in
  let h := set_process server0 (Some 4242) in
  loop_body w 10 (1 # 100)%Q (Finite 60%Q) initial_poll_state []
    = (Continue {| cur_attempt := 0; model_loading_time := 1 |},
       [Get (Response 503); Sleep 1%Q])
  /\ is_running 2 w h 10 (1 # 100)%Q (Finite 60%Q)
       = Some (true, [Get (Response 503); Sleep 1%Q; Get (Response 200)])
  /\ count (is_sleep_of (1 # 100)%Q)
           [Get (Response 503); Sleep 1%Q; Get (Response 200)] = 0%nat.
Proof. intros w h. split; [reflexivity|]. split; reflexivity. Qed.

(** C8, as the code has it: when the selected section is a non-empty
    mapping, a missing required field makes the constructor raise
    [TypeError]; nothing checks the type of a field, so any value given for
    a required field is stored as it is; with both required fields present
    (and no unknown field) an absent [port] becomes 8080 and an absent
    [use_gpu] becomes true. *)
Theorem from_yaml_section data keys (kw : gmap string yaml) :
  descend data (default [] keys) = Ok (YMap kw) ->
  kw <> ∅ ->
  (kw !! "llama_cpp_repo_path" = None \/ kw !! "model_path" = None ->
   from_yaml data keys = Raise TypeError)
  /\ (forall repo model,
        kw !! "llama_cpp_repo_path" = Some repo ->
        kw !! "model_path" = Some model ->
        dom kw ⊆ config_fields ->
        exists c,
          from_yaml data keys = Ok (Some c)
          /\ cfg_llama_cpp_repo_path c = repo
          /\ cfg_model_path c = model
          /\ cfg_port c = default (YInt 8080) (kw !! "port")
          /\ cfg_use_gpu c = default (YBool true) (kw !! "use_gpu")).
Proof.
  intros Hd Hne. unfold from_yaml. rewrite Hd. cbn [truthy].
  rewrite bool_decide_eq_false_2 by done. cbn [negb cls_splat].
  unfold cls_kwargs. split.
  - intros Hmiss. destruct (bool_decide _); [|done].
    destruct Hmiss as [-> | ->]; [done|].
    by destruct (kw !! "llama_cpp_repo_path").
  - intros repo model Hr Hm Hdom.
    rewrite bool_decide_eq_true_2 by done. rewrite Hr, Hm.
    by eexists.
Qed.

Lemma from_yaml_section_witness :
  descend (data_of_section section_int_repo) (default [] default_key_to_config)
    = Ok (YMap section_int_repo)
  /\ section_int_repo <> ∅
  /\ section_int_repo !! "llama_cpp_repo_path" = Some (YInt 5)
  /\ section_int_repo !! "model_path" = Some (YStr "models/llama.gguf")
  /\ dom section_int_repo ⊆ config_fields
  /\ exists c,
       from_yaml (data_of_section section_int_repo) default_key_to_config
         = Ok (Some c)
       /\ cfg_llama_cpp_repo_path c = YInt 5
       /\ cfg_model_path c = YStr "models/llama.gguf"
       /\ cfg_port c = default (YInt 8080) (section_int_repo !! "port")
       /\ cfg_use_gpu c = default (YBool true) (section_int_repo !! "use_gpu").
Proof.
  assert (Hd : descend (data_of_section section_int_repo)
                 (default [] default_key_to_config)
               = Ok (YMap section_int_repo)) by reflexivity.
  assert (Hne : section_int_repo <> ∅) by done.
  assert (Hdom : dom section_int_repo ⊆ config_fields)
    by (apply (bool_decide_unpack _); vm_compute; exact I).
  split; [exact Hd|]. split; [exact Hne|].
  split; [reflexivity|]. split; [reflexivity|]. split; [exact Hdom|].
  apply (proj2 (from_yaml_section (data_of_section section_int_repo)
                  default_key_to_config section_int_repo Hd Hne)
           (YInt 5) (YStr "models/llama.gguf") eq_refl eq_refl Hdom).
Defined.

(** The sentences of C8 that do not hold: a required field of the wrong
    type (an integer where a path is expected) is accepted without any
    error, and a missing required field raises [TypeError]. *)
Lemma from_yaml_does_not_validate :
  from_yaml (data_of_section section_int_repo) default_key_to_config
    = Ok (Some {| cfg_llama_cpp_repo_path := YInt 5;
                  cfg_model_path := YStr "models/llama.gguf";
                  cfg_port := YInt 8080;
                  cfg_use_gpu := YBool true |})
  /\ from_yaml (data_of_section section_no_model) default_key_to_config
       = Raise TypeError.
Proof. split; reflexivity. Qed.

(** C9: the descent treats a key that is missing from the mapping it has
    reached as an empty mapping; once a key is missing the descent ends in
    the empty mapping whatever keys follow; and when the descent ends in an
    empty mapping [from_yaml] returns [None] and raises nothing. *)
Theorem from_yaml_absent data (keys : option (list string)) :
  (forall (m : gmap string yaml) k,
     m !! k = None -> yaml_get (YMap m) k = Ok (YMap ∅))
  /\ (key_missing data (default [] keys) -> from_yaml data keys = Ok None)
  /\ (descend data (default [] keys) = Ok (YMap ∅) ->
      from_yaml data keys = Ok None).
Proof.
  assert (Hend : descend data (default [] keys) = Ok (YMap ∅) ->
                 from_yaml data keys = Ok None).
  { intros H. unfold from_yaml. by rewrite H. }
  split; [|split; [|done]].
  - intros m k H. simpl. by rewrite H.
  - intros H. by apply Hend, descend_key_missing.
Qed.

Lemma from_yaml_absent_witness :
  key_missing data_other_section (default [] (Some ["LlamaServer"; "extra"]))
  /\ from_yaml data_other_section (Some ["LlamaServer"; "extra"]) = Ok None.
Proof.
  assert (H : key_missing data_other_section
                (default [] (Some ["LlamaServer"; "extra"]))) by exact I.
  split; [exact H|].
  apply (proj1 (proj2 (from_yaml_absent data_other_section
                         (Some ["LlamaServer"; "extra"]))) H).
Defined.

(** C10, as the code has it: for a non-negative attempt bound and a finite
    wait of at least -1, whatever the health endpoint answers to each
    request, [is_running] returns after at most
    [max_connection_attempts + 1] refused requests, at most
    [floor(wait) + 2] requests answered 503 and at most one request
    answered otherwise.  The world [w] is arbitrary; a fixed infinite
    sequence [s] of answers is the world [scripted s]. *)
Theorem is_running_terminates (fuel : nat) w h p mca slp (q : Q) :
  process h = Some p ->
  0 <= mca ->
  (inject_Z (-1) <= q)%Q ->
  mca + Qfloor q + 1 < Z.of_nat fuel ->
  exists b tr,
    is_running fuel w h mca slp (Finite q) = Some (b, tr)
    /\ Z.of_nat (count is_refused tr) <= mca + 1
    /\ Z.of_nat (count is_503 tr) <= Qfloor q + 2
    /\ (count is_terminal_get tr <= 1)%nat
    /\ Z.of_nat (count is_get tr) <= (mca + 1) + (Qfloor q + 2) + 1.
Proof.
  intros Hp Hmca Hq Hfuel.
  assert (-1 <= Qfloor q).
  { apply Qfloor_resp_le in Hq. by rewrite Qfloor_Z in Hq. }
  destruct (while_true_bounded w mca slp q fuel initial_poll_state [])
    as (b & tr & Hrun & Hr & H5 & Ht);
    cbn [cur_attempt model_loading_time initial_poll_state]; try lia.
  exists b, tr. unfold is_running. rewrite Hp. split; [done|].
  rewrite count_get_split.
  cbn [cur_attempt model_loading_time initial_poll_state] in Hr, H5, Ht.
  change (count _ []) with 0%nat in Hr, H5, Ht. lia.
Qed.

Lemma is_running_terminates_witness :
  let h := set_process server0 (Some 4242) in
  let w := world_of (scripted loading_once) in
  process h = Some 4242
  /\ 0 <= 10
  /\ (inject_Z (-1) <= 60)%Q
  /\ 10 + Qfloor 60 + 1 < Z.of_nat 72
  /\ exists b tr,
       is_running 72 w h 10 (1 # 100)%Q (Finite 60%Q) = Some (b, tr)
       /\ Z.of_nat (count is_refused tr) <= 10 + 1
       /\ Z.of_nat (count is_503 tr) <= Qfloor 60 + 2
       /\ (count is_terminal_get tr <= 1)%nat
       /\ Z.of_nat (count is_get tr) <= (10 + 1) + (Qfloor 60 + 2) + 1.
Proof.
  intros h w.
  assert (H1 : 0 <= 10) by lia.
  assert (H2 : (inject_Z (-1) <= 60)%Q) by (vm_compute; discriminate).
  assert (H3 : 10 + Qfloor 60 + 1 < Z.of_nat 72) by (vm_compute; reflexivity).
  split; [reflexivity|]. split; [exact H1|]. split; [exact H2|].
  split; [exact H3|].
  apply (is_running_terminates 72 w h 4242 10 (1 # 100)%Q 60%Q eq_refl H1 H2 H3).
Defined.

(** The sentences of C10 that do not hold for all arguments: with an
    infinite wait and an endpoint that keeps answering 503 the poll never
    returns; with a negative attempt bound one refused request is made,
    which is more than [max_connection_attempts + 1]. *)
Lemma is_running_unbounded :
  let h := set_process server0 (Some 4242) in
  (forall fuel,
     is_running fuel (world_of always_503) h 10 (1 # 100)%Q PInf = None)
  /\ (is_running 1 unreachable_world h (-1) (1 # 100)%Q (Finite 60%Q)
        = Some (false, [Get ConnectionError])
      /\ ~ (Z.of_nat (count is_refused [Get ConnectionError]) <= -1 + 1)).
Proof.
  intros h. split.
  - intros fuel. unfold is_running. simpl.
    by apply while_true_503_forever.
  - split; [reflexivity|]. change (~ 1 <= 0). lia.
Qed.

(** ** Further properties of [from_yaml] *)

Lemma descend_nest (keys : list string) (v : yaml) :
  descend (nest keys v) keys = Ok v.
Proof.
  induction keys as [|k keys IH]; [done|].
  simpl. by rewrite lookup_singleton_eq.
Qed.

Lemma descend_app (ks1 ks2 : list string) :
  forall v,
    descend v (ks1 ++ ks2) =
      match descend v ks1 with
      | Ok v' => descend v' ks2
      | Raise e => Raise e
      end.
Proof.
  induction ks1 as [|k ks1 IH]; intros v; [done|].
  simpl. destruct (yaml_get v k); [apply IH|done].
Qed.

Lemma config_mapping_dom (c : LlamaServerConfig) :
  dom (config_mapping c) = config_fields.
Proof.
  unfold config_mapping, config_fields.
  rewrite !dom_insert_L, dom_singleton_L. set_solver.
Qed.

(** Round trip: a configuration written as a mapping with its four fields,
    placed under any path of keys, is read back unchanged by [from_yaml] with
    that path; with no key sequence ([None]) the document itself is read as
    the section. *)
Theorem from_yaml_round_trip (keys : list string) (c : LlamaServerConfig) :
  from_yaml (nest keys (YMap (config_mapping c))) (Some keys) = Ok (Some c)
  /\ from_yaml (YMap (config_mapping c)) None = Ok (Some c).
Proof.
  assert (H : forall ks,
             from_yaml (nest ks (YMap (config_mapping c))) (Some ks)
             = Ok (Some c)).
  { intros ks. unfold from_yaml. cbn [default]. rewrite descend_nest.
    cbn [truthy].
    rewrite bool_decide_eq_false_2 by apply insert_non_empty.
    cbn [negb cls_splat]. unfold cls_kwargs.
    rewrite bool_decide_eq_true_2 by (by rewrite config_mapping_dom).
    destruct c as [repo model port gpu]. reflexivity. }
  split; [apply H|apply (H [])].
Qed.

(** [from_yaml] returns a configuration exactly when the descent ends in a
    mapping that has only known fields and both required ones; the
    configuration then holds the values of the mapping, with 8080 and true
    for an absent [port] and [use_gpu]. *)
Theorem from_yaml_some_iff data keys (c : LlamaServerConfig) :
  from_yaml data keys = Ok (Some c) <->
  exists kw : gmap string yaml,
    descend data (default [] keys) = Ok (YMap kw)
    /\ dom kw ⊆ config_fields
    /\ kw !! "llama_cpp_repo_path" = Some (cfg_llama_cpp_repo_path c)
    /\ kw !! "model_path" = Some (cfg_model_path c)
    /\ cfg_port c = default (YInt 8080) (kw !! "port")
    /\ cfg_use_gpu c = default (YBool true) (kw !! "use_gpu").
Proof.
  unfold from_yaml. split.
  - destruct (descend data (default [] keys)) as [v|]; [|done].
    destruct (truthy v); [|done]. cbn [negb].
    destruct v as [| | | | | |kw]; try done. cbn [cls_splat].
    unfold cls_kwargs. case_bool_decide as Hdom; [|done].
    destruct (kw !! "llama_cpp_repo_path") as [repo|] eqn:Hr; [|done].
    destruct (kw !! "model_path") as [model|] eqn:Hm; [|done].
    intros [= <-]. exists kw. by rewrite Hr, Hm.
  - intros (kw & -> & Hdom & Hr & Hm & Hp & Hg). cbn [truthy].
    rewrite bool_decide_eq_false_2.
    2:{ intros ->. by rewrite lookup_empty in Hr. }
    cbn [negb cls_splat]. unfold cls_kwargs.
    rewrite bool_decide_eq_true_2 by done. rewrite Hr, Hm.
    destruct c as [repo model port gpu]. simpl in *. by rewrite Hp, Hg.
Qed.

Lemma from_yaml_some_iff_witness :
  exists kw : gmap string yaml,
    descend (data_of_section section_int_repo)
            (default [] default_key_to_config) = Ok (YMap kw)
    /\ dom kw ⊆ config_fields
    /\ kw !! "llama_cpp_repo_path" = Some (YInt 5)
    /\ kw !! "model_path" = Some (YStr "models/llama.gguf")
    /\ YInt 8080 = default (YInt 8080) (kw !! "port")
    /\ YBool true = default (YBool true) (kw !! "use_gpu").
Proof.
  apply (proj1 (from_yaml_some_iff
                  (data_of_section section_int_repo) default_key_to_config
                  {| cfg_llama_cpp_repo_path := YInt 5;
                     cfg_model_path := YStr "models/llama.gguf";
                     cfg_port := YInt 8080;
                     cfg_use_gpu := YBool true |})).
  reflexivity.
Defined.

(** A section that is not a mapping: a false value (null, false, 0, an
    empty string, an empty list) gives [None]; any other value makes the
    constructor call raise [TypeError]. *)
Theorem from_yaml_scalar_section (keys : list string) (v : yaml) :
  is_mapping v = false ->
  from_yaml (nest keys v) (Some keys)
    = if truthy v then Raise TypeError else Ok None.
Proof.
  intros Hv. unfold from_yaml. cbn [default]. rewrite descend_nest.
  destruct (truthy v); [|done]. by destruct v.
Qed.

Lemma from_yaml_scalar_section_witness :
  is_mapping YNull = false
  /\ is_mapping (YStr "llama.cpp") = false
  /\ from_yaml (nest ["LlamaServer"] YNull) (Some ["LlamaServer"]) = Ok None
  /\ from_yaml (nest ["LlamaServer"] (YStr "llama.cpp")) (Some ["LlamaServer"])
       = Raise TypeError.
Proof.
  split; [reflexivity|]. split; [reflexivity|]. split.
  - apply (from_yaml_scalar_section ["LlamaServer"] YNull). reflexivity.
  - apply (from_yaml_scalar_section ["LlamaServer"] (YStr "llama.cpp")).
    reflexivity.
Defined.

(** A field the dataclass does not declare makes [from_yaml] raise
    [TypeError], also when both required fields are present. *)
Theorem from_yaml_unknown_field data keys (kw : gmap string yaml) k v :
  descend data (default [] keys) = Ok (YMap kw) ->
  kw !! k = Some v ->
  k ∉ config_fields ->
  from_yaml data keys = Raise TypeError.
Proof.
  intros Hd Hk Hnot. unfold from_yaml. rewrite Hd. cbn [truthy].
  rewrite bool_decide_eq_false_2.
  2:{ intros ->. by rewrite lookup_empty in Hk. }
  cbn [negb cls_splat]. unfold cls_kwargs.
  rewrite bool_decide_eq_false_2; [done|].
  intros Hdom. apply Hnot, Hdom. apply elem_of_dom. by exists v.
Qed.

Lemma from_yaml_unknown_field_witness :
  let kw : gmap string yaml :=
    <["gpu_layers" := YInt 1000]> (config_mapping
      {| cfg_llama_cpp_repo_path := YStr "llama.cpp";
         cfg_model_path := YStr "models/llama.gguf";
         cfg_port := YInt 8080;
         cfg_use_gpu := YBool true |}) in
  descend (data_of_section kw) (default [] default_key_to_config)
    = Ok (YMap kw)
  /\ kw !! "gpu_layers" = Some (YInt 1000)
  /\ ("gpu_layers" ∉ config_fields)
  /\ from_yaml (data_of_section kw) default_key_to_config = Raise TypeError.
Proof.
  intros kw.
  assert (Hnot : "gpu_layers" ∉ config_fields)
    by (apply (bool_decide_unpack _); vm_compute; exact I).
  split; [reflexivity|]. split; [reflexivity|]. split; [exact Hnot|].
  apply (from_yaml_unknown_field (data_of_section kw) default_key_to_config
           kw "gpu_layers" (YInt 1000) eq_refl eq_refl Hnot).
Defined.

(** When the descent reaches a value that is not a mapping and keys are
    left, [from_yaml] raises [AttributeError]; an empty document (null) with
    the default key is one such case. *)
Theorem from_yaml_key_below_scalar (keys : list string) (v : yaml) k rest :
  is_mapping v = false ->
  from_yaml (nest keys v) (Some (keys ++ k :: rest)) = Raise AttributeError.
Proof.
  intros Hv. unfold from_yaml.
  change (default [] (Some (keys ++ k :: rest))) with (keys ++ k :: rest).
  cbn zeta. rewrite descend_app, descend_nest. by destruct v.
Qed.

Lemma from_yaml_key_below_scalar_witness :
  is_mapping YNull = false
  /\ from_yaml (nest [] YNull) (Some ([] ++ "LlamaServer" :: []))
       = Raise AttributeError.
Proof.
  split; [reflexivity|].
  apply (from_yaml_key_below_scalar [] YNull "LlamaServer" []). reflexivity.
Defined.

(** ** Further properties of [is_running] *)

(** The loop keeps its two counters equal to the number of refused requests
    and of 503 answers it has seen, and it returns right after a request. *)
Lemma while_true_last_request w mca slp mw (n : nat) :
  forall st tr b tr',
    cur_attempt st = Z.of_nat (count is_refused tr) ->
    model_loading_time st = Z.of_nat (count is_503 tr) ->
    cur_attempt st <= Z.max 0 mca ->
    while_true n w mca slp mw st tr = Some (b, tr') ->
    exists pre o,
      tr' = pre ++ [Get o]
      /\ Z.of_nat (count is_refused tr') <= Z.max 0 mca + 1
      /\ match o with
         | ConnectionError =>
             b = false /\ mca < Z.of_nat (count is_refused tr')
         | Response c =>
             if c =? 503
             then b = false
                  /\ int_gt_float (Z.of_nat (count is_503 tr') - 1) mw = true
             else b = (c =? 200)
         end.
Proof.
  induction n as [|n IH]; intros st tr b tr' Hcur Hmlt Hmax Hrun; [done|].
  rewrite while_true_S in Hrun. destruct (health w tr) as [|c] eqn:Ho.
  - rewrite loop_body_refused in Hrun by done.
    destruct (Z.gtb_spec (cur_attempt st + 1) mca) as [Hgt|Hle].
    + injection Hrun as <- <-. exists tr, ConnectionError.
      rewrite count_snoc. simpl. split; [done|]. split; [lia|]. split; [done|lia].
    + apply IH in Hrun; [done|..]; rewrite ?count_snoc; simpl; lia.
  - destruct (Z.eq_dec c 503) as [->|Hc].
    + rewrite loop_body_503 in Hrun by done.
      destruct (int_gt_float (model_loading_time st) mw) eqn:Hgt.
      * injection Hrun as <- <-. exists tr, (Response 503).
        rewrite !count_snoc. simpl. split; [done|]. split; [lia|].
        split; [done|].
        replace (Z.of_nat (count is_503 tr + 1) - 1)
          with (model_loading_time st) by lia.
        done.
      * apply IH in Hrun; [done|..]; rewrite ?count_snoc; simpl; lia.
    + rewrite (loop_body_other _ _ _ _ _ _ c) in Hrun by done.
      injection Hrun as <- <-. exists tr, (Response c).
      rewrite count_snoc. simpl. split; [done|]. split; [lia|].
      by destruct (Z.eqb_spec c 503).
Qed.

(** The poll only makes health requests and sleeps. *)
Lemma while_true_poll_events w mca slp mw (n : nat) :
  forall st tr b tr',
    forallb is_poll_event tr = true ->
    while_true n w mca slp mw st tr = Some (b, tr') ->
    forallb is_poll_event tr' = true.
Proof.
  induction n as [|n IH]; intros st tr b tr' Htr Hrun; [done|].
  rewrite while_true_S in Hrun.
  assert (Hget : forallb is_poll_event (tr ++ [Get (health w tr)]) = true).
  { rewrite forallb_app, Htr. done. }
  assert (Hsleep : forall d,
             forallb is_poll_event ((tr ++ [Get (health w tr)]) ++ [Sleep d])
             = true).
  { intros d. rewrite forallb_app, Hget. done. }
  destruct (health w tr) as [|c] eqn:Ho.
  - rewrite loop_body_refused in Hrun by done.
    destruct (cur_attempt st + 1 >? mca); [by injection Hrun as <- <-|].
    apply (IH _ _ _ _ (Hsleep _) Hrun).
  - destruct (Z.eq_dec c 503) as [->|Hc].
    + rewrite loop_body_503 in Hrun by done.
      destruct (int_gt_float (model_loading_time st) mw);
        [by injection Hrun as <- <-|].
      apply (IH _ _ _ _ (Hsleep _) Hrun).
    + rewrite (loop_body_other _ _ _ _ _ _ c) in Hrun by done.
      by injection Hrun as <- <-.
Qed.

(** Whenever [is_running] returns on a handle that owns a process, the last
    thing it did was a health request, and it did nothing but requests and
    sleeps.  The answer is true exactly when that request was answered 200.
    It ends on a refused connection only when the refused requests of the
    whole poll outnumber [max_connection_attempts] (503 answers in between
    do not reset the count), and on a 503 only when the 503 answers before
    it outnumber the wait.  It never makes more than
    [max(0, max_connection_attempts) + 1] refused requests. *)
Theorem is_running_last_response (fuel : nat) w h p mca slp mw b tr :
  process h = Some p ->
  is_running fuel w h mca slp mw = Some (b, tr) ->
  exists pre o,
    tr = pre ++ [Get o]
    /\ forallb is_poll_event tr = true
    /\ (b = true <-> o = Response 200)
    /\ (o = ConnectionError -> mca < Z.of_nat (count is_refused tr))
    /\ (o = Response 503 ->
        int_gt_float (Z.of_nat (count is_503 tr) - 1) mw = true)
    /\ Z.of_nat (count is_refused tr) <= Z.max 0 mca + 1.
Proof.
  intros Hp Hrun. unfold is_running in Hrun. rewrite Hp in Hrun.
  pose proof (while_true_poll_events _ _ _ _ _ _ [] _ _ eq_refl Hrun) as Hev.
  apply while_true_last_request in Hrun as (pre & o & -> & Hmax & Ho);
    [|done|done|simpl; lia].
  exists pre, o. split; [done|]. split; [done|].
  destruct o as [|c].
  - destruct Ho as [-> Hgt]. repeat split; try done.
  - destruct (Z.eqb_spec c 503) as [->|Hc].
    + destruct Ho as [-> Hgt]. repeat split; try done.
    + subst b. repeat split; try done.
      * intros H200. destruct (Z.eqb_spec c 200); [by subst|done].
      * intros [= ->]. done.
      * intros [= ->]. done.
Qed.

Lemma is_running_last_response_witness :
  let h := set_process server0 (Some 4242) in
  let tr := refused_trace 2 (1 # 100)%Q in
  process h = Some 4242
  /\ is_running 3 unreachable_world h 2 (1 # 100)%Q (Finite 60%Q)
       = Some (false, tr)
  /\ exists pre o,
       tr = pre ++ [Get o]
       /\ forallb is_poll_event tr = true
       /\ (false = true <-> o = Response 200)
       /\ (o = ConnectionError -> 2 < Z.of_nat (count is_refused tr))
       /\ (o = Response 503 ->
           int_gt_float (Z.of_nat (count is_503 tr) - 1) (Finite 60%Q) = true)
       /\ Z.of_nat (count is_refused tr) <= Z.max 0 2 + 1.
Proof.
  intros h tr. split; [reflexivity|]. split; [reflexivity|].
  apply (is_running_last_response 3 unreachable_world h 4242 2 (1 # 100)%Q
           (Finite 60%Q) false tr); reflexivity.
Defined.

(** In every run in which each health request ends (in a refusal, a
    response or an exception), for a non-negative attempt bound, a retry
    delay that [time.sleep] accepts and a finite wait of at least -1,
    [is_running] returns or raises; an exception it raises is one that a
    request raised; and all its sleeps together last at most
    [max_connection_attempts * sleep_time_between_attempts + floor(wait) + 1]
    seconds. *)
Theorem is_running_sleeps_at_most (fuel : nat) E h p mca slp (q : Q) :
  process h = Some p ->
  (forall tr, env_get E tr <> NoReply) ->
  0 <= mca ->
  time_sleep slp = None ->
  (inject_Z (-1) <= q)%Q ->
  mca + Qfloor q + 1 < Z.of_nat fuel ->
  exists r tr,
    Full.is_running fuel E h mca slp (Finite q) = Some (r, tr)
    /\ (elapsed tr <= inject_Z mca * slp + inject_Z (Qfloor q + 1))%Q
    /\ (forall e, r = Raise e -> exists tr0, env_get E tr0 = Raised e).
Proof.
  intros Hp Hends Hmca Hslp Hq Hfuel.
  assert (-1 <= Qfloor q).
  { apply Qfloor_resp_le in Hq. by rewrite Qfloor_Z in Hq. }
  destruct (full_while_true_bounded E mca slp q fuel Hends Hslp
              initial_poll_state [])
    as (r & tr & Hrun & _ & Hel & Hr);
    cbn [cur_attempt model_loading_time initial_poll_state]; try lia; [done|].
  exists r, tr. unfold Full.is_running. rewrite Hp. split; [done|]. split.
  - cbn [cur_attempt model_loading_time initial_poll_state elapsed] in Hel.
    rewrite !Z.sub_0_r in Hel. lra.
  - intros e ->. exact Hr.
Qed.

Lemma is_running_sleeps_at_most_witness :
  let h := set_process server0 (Some 4242) in
  let E := env_of_world (world_of (loading_for 3)) in
  process h = Some 4242
  /\ (forall tr, env_get E tr <> NoReply)
  /\ 0 <= 10
  /\ time_sleep (1 # 100)%Q = None
  /\ (inject_Z (-1) <= 60)%Q
  /\ 10 + Qfloor 60 + 1 < Z.of_nat 72
  /\ exists r tr,
       Full.is_running 72 E h 10 (1 # 100)%Q (Finite 60%Q) = Some (r, tr)
       /\ (elapsed tr <= inject_Z 10 * (1 # 100) + inject_Z (Qfloor 60 + 1))%Q
       /\ (forall e, r = Raise e -> exists tr0, env_get E tr0 = Raised e).
Proof.
  intros h E.
  assert (H0 : forall tr, env_get E tr <> NoReply) by (intros tr; discriminate).
  assert (H1 : 0 <= 10) by lia.
  assert (H2 : time_sleep (1 # 100)%Q = None) by reflexivity.
  assert (H3 : (inject_Z (-1) <= 60)%Q) by (vm_compute; discriminate).
  assert (H4 : 10 + Qfloor 60 + 1 < Z.of_nat 72) by (vm_compute; reflexivity).
  split; [reflexivity|]. split; [exact H0|]. split; [exact H1|].
  split; [exact H2|]. split; [exact H3|]. split; [exact H4|].
  apply (is_running_sleeps_at_most 72 E h 4242 10 (1 # 100)%Q 60%Q
           eq_refl H0 H1 H2 H3 H4).
Defined.

(** *** A server that starts listening after [r] refused requests *)

Lemma while_true_refusing_ready w (r : nat) mca slp mw :
  health w = scripted (refusing_for r) ->
  (r <= Z.to_nat mca)%nat ->
  forall (n : nat) st tr,
    (count is_get tr + n = r)%nat ->
    cur_attempt st = Z.of_nat (count is_get tr) ->
    while_true (S n) w mca slp mw st tr
      = Some (true, tr ++ retry_trace n slp ++ [Get (Response 200)]).
Proof.
  intros Hw Hr. induction n as [|n IH]; intros st tr Hn Hcur;
    rewrite while_true_S.
  - rewrite (loop_body_other _ _ _ _ _ _ 200); [done| |done].
    rewrite Hw. unfold scripted, refusing_for.
    destruct (Nat.ltb_spec (count is_get tr) r); [lia|done].
  - rewrite loop_body_refused.
    2:{ rewrite Hw. unfold scripted, refusing_for.
        destruct (Nat.ltb_spec (count is_get tr) r); [done|lia]. }
    destruct (Z.gtb_spec (cur_attempt st + 1) mca); [lia|].
    rewrite IH.
    + unfold retry_trace. simpl. by rewrite <- !app_assoc.
    + rewrite !count_snoc. simpl. lia.
    + rewrite !count_snoc. simpl. lia.
Qed.

Lemma while_true_refusing_fails w (r : nat) mca slp mw :
  health w = scripted (refusing_for r) ->
  forall (m : nat) st tr,
    m = Z.to_nat (mca - cur_attempt st) ->
    (count is_get tr + m < r)%nat ->
    while_true (S m) w mca slp mw st tr
      = Some (false, tr ++ refused_trace m slp).
Proof.
  intros Hw. induction m as [|m IH]; intros st tr Hm Hlt;
    rewrite while_true_S, loop_body_refused.
  - destruct (Z.gtb_spec (cur_attempt st + 1) mca); [done|lia].
  - rewrite Hw. unfold scripted, refusing_for.
    destruct (Nat.ltb_spec (count is_get tr) r); [done|lia].
  - destruct (Z.gtb_spec (cur_attempt st + 1) mca); [lia|].
    rewrite IH.
    + unfold refused_trace. simpl. by rewrite <- !app_assoc.
    + simpl. lia.
    + rewrite !count_snoc. simpl. lia.
  - rewrite Hw. unfold scripted, refusing_for.
    destruct (Nat.ltb_spec (count is_get tr) r); [done|lia].
Qed.

(** Against a server that refuses the first [r] health requests and answers
    200 from then on, and for a retry delay that [time.sleep] accepts,
    [is_running] answers true exactly when [r] is at most
    [max_connection_attempts] (or [r] is 0): it then makes [r + 1] requests
    and sleeps [r] times.  Otherwise it gives up after
    [max(0, max_connection_attempts) + 1] refused requests. *)
Theorem is_running_refusing (fuel r : nat) E h p mca slp mw :
  process h = Some p ->
  (forall tr, env_get E tr = Replied (scripted (refusing_for r) tr)) ->
  time_sleep slp = None ->
  (r < fuel)%nat ->
  Full.is_running fuel E h mca slp mw
    = Some (if (r <=? Z.to_nat mca)%nat
            then (Ok true, retry_trace r slp ++ [Get (Response 200)])
            else (Ok false, refused_trace (Z.to_nat mca) slp)).
Proof.
  intros Hp HE Hslp Hfuel.
  set (w := {| popen := fun _ => None;
               health := scripted (refusing_for r) |}).
  rewrite (full_is_running_agrees fuel E w) by done.
  unfold is_running. rewrite Hp.
  destruct (Nat.leb_spec r (Z.to_nat mca)) as [Hle|Hgt].
  - rewrite (while_true_mono (S r) fuel _ _ _ _ _ _
               (true, retry_trace r slp ++ [Get (Response 200)]));
      [done|lia|].
    by rewrite (while_true_refusing_ready w r mca slp mw eq_refl Hle).
  - rewrite (while_true_mono (S (Z.to_nat mca)) fuel _ _ _ _ _ _
               (false, refused_trace (Z.to_nat mca) slp)); [done|lia|].
    rewrite (while_true_refusing_fails w r mca slp mw eq_refl); [done| |done].
    simpl. f_equal. lia.
Qed.

Lemma is_running_refusing_witness :
  let h := set_process server0 (Some 4242) in
  let E := env_of_world (world_of (scripted (refusing_for 3))) in
  process h = Some 4242
  /\ (forall tr, env_get E tr = Replied (scripted (refusing_for 3) tr))
  /\ time_sleep (1 # 100)%Q = None
  /\ (3 < 4)%nat
  /\ Full.is_running 4 E h 3 (1 # 100)%Q (Finite 60%Q)
       = Some (Ok true, retry_trace 3 (1 # 100)%Q ++ [Get (Response 200)])
  /\ Full.is_running 4 E h 2 (1 # 100)%Q (Finite 60%Q)
       = Some (Ok false, refused_trace 2 (1 # 100)%Q).
Proof.
  intros h E. split; [reflexivity|]. split; [reflexivity|].
  split; [reflexivity|]. split; [lia|]. split.
  - apply (is_running_refusing 4 3 E h 4242 3 (1 # 100)%Q (Finite 60%Q)
             eq_refl (fun _ => eq_refl) eq_refl ltac:(lia)).
  - apply (is_running_refusing 4 3 E h 4242 2 (1 # 100)%Q (Finite 60%Q)
             eq_refl (fun _ => eq_refl) eq_refl ltac:(lia)).
Defined.

(** *** A wait that never runs out *)

Lemma while_true_503_unlimited w mca slp mw (fuel : nat) :
  (forall k, int_gt_float k mw = false) ->
  (forall tr, health w tr = Response 503) ->
  forall st tr, while_true fuel w mca slp mw st tr = None.
Proof.
  intros Hmw Hw. induction fuel as [|fuel IH]; intros st tr; [done|].
  rewrite while_true_S, loop_body_503 by done. rewrite Hmw. apply IH.
Qed.

(** With a wait of plus infinity or NaN no 503 ever ends the poll: when it
    returns false, the last answer was not a 503; and while the server keeps
    answering 503 it does not return at all.  With a wait of minus infinity
    the first 503 ends it. *)
Theorem is_running_nonfinite_wait (fuel : nat) w h p mca slp mw :
  process h = Some p ->
  (mw = PInf \/ mw = NaN ->
   (forall b tr,
      is_running fuel w h mca slp mw = Some (b, tr) ->
      forall pre, tr <> pre ++ [Get (Response 503)])
   /\ ((forall tr, health w tr = Response 503) ->
       is_running fuel w h mca slp mw = None))
  /\ (mw = NInf ->
      health w [] = Response 503 ->
      is_running (S fuel) w h mca slp mw
        = Some (false, [Get (Response 503)])).
Proof.
  intros Hp. split.
  - intros Hmw.
    assert (Hnever : forall k, int_gt_float k mw = false)
      by (by destruct Hmw as [-> | ->]).
    split.
    + intros b tr Hrun pre ->.
      unfold is_running in Hrun. rewrite Hp in Hrun.
      apply while_true_last_request in Hrun as (pre' & o & Heq & _ & Ho);
        [|done|done|simpl; lia].
      apply app_inj_tail in Heq as [_ [= <-]].
      simpl in Ho. rewrite Hnever in Ho. by destruct Ho.
    + intros Hw. unfold is_running. rewrite Hp.
      by apply while_true_503_unlimited.
  - intros -> Hw. unfold is_running. rewrite Hp, while_true_S.
    by rewrite loop_body_503.
Qed.

Lemma is_running_nonfinite_wait_witness :
  let h := set_process server0 (Some 4242) in
  let w := world_of always_503 in
  process h = Some 4242
  /\ (NaN = PInf \/ NaN = NaN)
  /\ (forall tr, health w tr = Response 503)
  /\ is_running 1000 w h 10 (1 # 100)%Q NaN = None
  /\ health w [] = Response 503
  /\ is_running 1 w h 10 (1 # 100)%Q NInf = Some (false, [Get (Response 503)]).
Proof.
  intros h w.
  pose proof (is_running_nonfinite_wait 1000 w h 4242 10 (1 # 100)%Q NaN
                eq_refl) as [Hnan _].
  pose proof (is_running_nonfinite_wait 0 w h 4242 10 (1 # 100)%Q NInf
                eq_refl) as [_ Hninf].
  split; [reflexivity|]. split; [by right|]. split; [reflexivity|].
  split; [|split; [reflexivity|]].
  - apply (proj2 (Hnan (or_intror eq_refl))). reflexivity.
  - apply (Hninf eq_refl eq_refl).
Defined.

(** ** Properties of the URLs *)

Lemma string_length_app (a b : string) :
  String.length (a +:+ b) = (String.length a + String.length b)%nat.
Proof. induction a as [|x a IH]; simpl; [done|by rewrite IH]. Qed.

Lemma string_app_inj_r (a b c : string) : a +:+ c = b +:+ c -> a = b.
Proof.
  revert b. induction a as [|x a IH]; intros [|y b] H; simpl in H.
  - done.
  - apply (f_equal String.length) in H.
    rewrite !string_length_app in H. simpl in H.
    rewrite ?string_length_app in H. lia.
  - apply (f_equal String.length) in H.
    rewrite !string_length_app in H. simpl in H.
    rewrite ?string_length_app in H. lia.
  - injection H as -> H. f_equal. by apply IH.
Qed.

Example health_check_url_8080 :
  health_check_url server0 = "http://localhost:8080/health"
  /\ completion_url server0 = "http://localhost:8080/completion".
Proof. split; reflexivity. Qed.

(** The URLs depend on the port alone and determine it: two handles have
    the same base URL (or the same health URL, or the same completion URL)
    exactly when they have the same port. *)
Theorem urls_determine_port (h1 h2 : LlamaServer) :
  (base_url h1 = base_url h2 <-> port h1 = port h2)
  /\ (health_check_url h1 = health_check_url h2 <-> port h1 = port h2)
  /\ (completion_url h1 = completion_url h2 <-> port h1 = port h2).
Proof.
  assert (Hbase : base_url h1 = base_url h2 <-> port h1 = port h2).
  { unfold base_url. split; [|by intros ->].
    intros H. apply (inj (String.app _)) in H. by apply (inj pretty) in H. }
  split; [done|]. unfold health_check_url, completion_url. split.
  - rewrite <- Hbase. split; [apply string_app_inj_r|by intros ->].
  - rewrite <- Hbase. split; [apply string_app_inj_r|by intros ->].
Qed.

Lemma urls_determine_port_witness :
  health_check_url server0
    = health_check_url (LlamaServer_init "other/server" "other.gguf" 8080 false)
  /\ (completion_url server0
        = completion_url (LlamaServer_init "server" "model.gguf" 8081 true)
      -> 8080 = 8081).
Proof.
  split.
  - apply (proj2 (proj1 (proj2 (urls_determine_port server0
             (LlamaServer_init "other/server" "other.gguf" 8080 false))))).
    reflexivity.
  - apply (proj1 (proj2 (proj2 (urls_determine_port server0
             (LlamaServer_init "server" "model.gguf" 8081 true))))).
Defined.

(** ** Further properties of [start] *)

(** In every run in which each health request ends and [Popen.wait]
    returns, [start] with enough fuel ends in one of four ways.  If [Popen]
    raises, its exception propagates, the handle is untouched and no health
    request is made.  Otherwise the poll consists of requests
    and sleeps only, its sleeps last at most 61 seconds plus ten retry
    delays together, and: the last answer was 200, [start] returns normally
    and the handle owns the new process, which has not been terminated; or
    [start] raises [ServerStartupError] after terminating and reaping that
    process, and the handle owns nothing; or a health request raised an
    exception that is not a [ConnectionError], it leaves [start], and the
    handle still owns the new process, which has not been terminated. *)
Theorem start_outcomes (fuel : nat) E h :
  (72 <= fuel)%nat ->
  (forall tr, env_get E tr <> NoReply) ->
  (forall p, env_wait E p = true) ->
  exists r h' tr,
    Full.start fuel E h = Some (r, h', tr)
    /\ match env_popen E (command h) with
       | Raise e => r = Raise e /\ h' = h /\ tr = []
       | Ok p =>
           exists poll,
             forallb is_poll_event poll = true
             /\ (elapsed poll
                 <= inject_Z 10 * default_sleep_time_between_attempts + 61)%Q
             /\ ((r = Ok tt
                  /\ h' = set_process h (Some p)
                  /\ tr = Spawn (command h) p :: poll
                  /\ exists pre, poll = pre ++ [Get (Response 200)])
                 \/ (r = Raise ServerStartupError
                     /\ h' = set_process h None
                     /\ tr = Spawn (command h) p :: poll
                               ++ [Terminate p; Wait p])
                 \/ (exists e tr0,
                       env_get E tr0 = Raised e
                       /\ r = Raise e
                       /\ h' = set_process h (Some p)
                       /\ tr = Spawn (command h) p :: poll))
       end.
Proof.
  intros Hfuel Hends Hwait. unfold Full.start.
  destruct (env_popen E (command h)) as [p|e0].
  2:{ eexists _, _, _. split; [done|]. done. }
  cbn zeta. unfold Full.is_running. cbn [process set_process].
  destruct (full_while_true_bounded E default_max_connection_attempts
              default_sleep_time_between_attempts (60 # 1)%Q fuel
              Hends time_sleep_default initial_poll_state [])
    as (r & poll & Hrun & Hev & Hel & Hr);
    cbn [cur_attempt model_loading_time initial_poll_state]; try done.
  { unfold default_max_connection_attempts.
    change (Qfloor (60 # 1)) with 60. lia. }
  fold default_max_wait_time_for_model_loading in Hrun. rewrite Hrun.
  assert (Hel' : (elapsed poll
                  <= inject_Z 10 * default_sleep_time_between_attempts + 61)%Q).
  { revert Hel. cbn [elapsed initial_poll_state cur_attempt model_loading_time].
    change (inject_Z (default_max_connection_attempts - 0)) with (inject_Z 10).
    change (inject_Z (Qfloor (60 # 1) + 1 - 0)) with (61 # 1)%Q. lra. }
  destruct r as [[|]|e].
  - eexists _, _, _. split; [done|]. exists poll. split; [done|].
    split; [done|]. left. done.
  - unfold Full.stop. cbn [process set_process]. rewrite Hwait.
    eexists _, _, _. split; [done|]. exists poll. split; [done|].
    split; [done|]. right; left. done.
  - destruct Hr as [tr0 Hr].
    eexists _, _, _. split; [done|]. exists poll. split; [done|].
    split; [done|]. right; right. by exists e, tr0.
Qed.

Lemma start_outcomes_witness :
  (72 <= 72)%nat
  /\ (forall tr, env_get invalid_url_env tr <> NoReply)
  /\ (forall p, env_wait invalid_url_env p = true)
  /\ exists r h' tr,
       Full.start 72 invalid_url_env server0 = Some (r, h', tr)
       /\ exists poll,
            forallb is_poll_event poll = true
            /\ (elapsed poll
                <= inject_Z 10 * default_sleep_time_between_attempts + 61)%Q
            /\ ((r = Ok tt
                 /\ h' = set_process server0 (Some 4242)
                 /\ tr = Spawn (command server0) 4242 :: poll
                 /\ exists pre, poll = pre ++ [Get (Response 200)])
                \/ (r = Raise ServerStartupError
                    /\ h' = set_process server0 None
                    /\ tr = Spawn (command server0) 4242 :: poll
                              ++ [Terminate 4242; Wait 4242])
                \/ (exists e tr0,
                      env_get invalid_url_env tr0 = Raised e
                      /\ r = Raise e
                      /\ h' = set_process server0 (Some 4242)
                      /\ tr = Spawn (command server0) 4242 :: poll)).
Proof.
  assert (H : (72 <= 72)%nat) by lia.
  assert (H0 : forall tr, env_get invalid_url_env tr <> NoReply)
    by (intros tr; discriminate).
  assert (H1 : forall p, env_wait invalid_url_env p = true)
    by (intros p; reflexivity).
  split; [exact H|]. split; [exact H0|]. split; [exact H1|].
  apply (start_outcomes 72 invalid_url_env server0 H H0 H1).
Defined.

(** The fourth way, at a handle whose health request raises: the exception
    leaves [start] and the process stays owned. *)
Example start_invalid_url :
  Full.start 72 invalid_url_env server0
    = Some (Raise (OtherException "InvalidURL"),
            set_process server0 (Some 4242),
            [Spawn (command server0) 4242]).
Proof. reflexivity. Qed.



(** [start] against a server that loads its model for [N] seconds: up to
    [N = 61] it returns normally after [N] one-second waits and the handle
    owns the process; beyond that it gives up at the 62nd answer of 503,
    after 61 seconds, terminates and reaps the process and raises
    [ServerStartupError]. *)
Theorem start_loading (fuel N : nat) w h p :
  popen w (command h) = Some p ->
  health w = loading_for N ->
  (N < fuel)%nat ->
  start fuel w h
    = Some (if (N <=? 61)%nat
            then (Ok tt, set_process h (Some p),
                  Spawn (command h) p :: poll_trace N (Response 200))
            else (Raise ServerStartupError, set_process h None,
                  Spawn (command h) p :: poll_trace 61 (Response 503)
                    ++ [Terminate p; Wait p])).
Proof.
  intros Hp Hw Hfuel. unfold start. rewrite Hp. cbn zeta.
  unfold is_running. cbn [process set_process].
  pose proof (while_true_loading w N default_max_connection_attempts
                default_sleep_time_between_attempts
                default_max_wait_time_for_model_loading Hw N
                initial_poll_state []) as Hrun.
  pose proof (loading_run_answer N 0 default_max_wait_time_for_model_loading)
    as Hans.
  pose proof (loading_run_sleeps N 0 default_max_wait_time_for_model_loading)
    as Hsl.
  cbn [model_loading_time initial_poll_state] in Hrun.
  destruct (loading_run N 0 default_max_wait_time_for_model_loading) as [s b].
  change ((s, b).2) with b in Hans.
  unfold default_max_wait_time_for_model_loading in Hans, Hsl.
  rewrite int_gt_float_floor in Hans.
  change (Qfloor (60 # 1)) with 60 in Hans.
  destruct Hsl as [Hbefore Hend].
  rewrite (while_true_mono (S N) fuel _ _ _ _ _ _ _ ltac:(lia)
             (Hrun ltac:(lia) ltac:(done))).
  destruct (Nat.leb_spec N 61) as [Hle|Hgt].
  - assert (b = true) as ->.
    { rewrite Hans. destruct (Nat.eqb_spec N 0); [done|]. simpl.
      destruct (Z.gtb_spec (0 + Z.of_nat N - 1) 60); [lia|done]. }
    subst s. done.
  - assert (b = false) as ->.
    { rewrite Hans. destruct (Nat.eqb_spec N 0); [lia|]. simpl.
      destruct (Z.gtb_spec (0 + Z.of_nat N - 1) 60); [done|lia]. }
    destruct Hend as [Hs Hgt']. rewrite int_gt_float_floor in Hgt'.
    change (Qfloor (60 # 1)) with 60 in Hgt'.
    assert (s = 61%nat) as ->; [|done].
    apply Z.gtb_lt in Hgt'.
    specialize (Hbefore (Z.of_nat s - 1) ltac:(lia)).
    rewrite int_gt_float_floor in Hbefore.
    change (Qfloor (60 # 1)) with 60 in Hbefore.
    destruct (Z.gtb_spec (Z.of_nat s - 1) 60); [done|lia].
Qed.

Lemma start_loading_witness :
  let w := world_of (loading_for 2) in
  popen w (command server0) = Some 4242
  /\ health w = loading_for 2
  /\ (2 < 3)%nat
  /\ start 3 w server0
       = Some (Ok tt, set_process server0 (Some 4242),
               Spawn (command server0) 4242 :: poll_trace 2 (Response 200)).
Proof.
  intros w. split; [reflexivity|]. split; [reflexivity|]. split; [lia|].
  apply (start_loading 3 2 w server0 4242 eq_refl eq_refl ltac:(lia)).
Defined.
